(** * Pong Force matchmaking server: the room manager

    A shallow embedding of [RoomManager] from [matchmaking_server.py]
    (the process-wide [active_rooms] dictionary, its operations and the
    periodic clean-up), together with the properties its specification
    states about it.

    Modelling decisions, each local to one definition below:
    - [active_rooms] is a [gmap string Room]; no property here depends on
      the iteration order of the Python dictionary.
    - a room is a record with the six keys [create_room] writes; the
      timestamps are kept as the instants themselves (microseconds), not
      as their ISO-8601 text: [datetime.fromisoformat] inverts
      [isoformat].
    - [datetime.now()] and [uuid.uuid4()] are oracles of the world: the
      n-th call returns the n-th value; every call advances a counter.
    - [save_rooms] appends the snapshot it writes to [rooms_file], so the
      number, order and content of the writes are observable.
    - the body of every operation runs under [rooms_lock]; operations are
      therefore modelled as atomic state transformers.
    - around the manager, [UserTracker] and the request handlers run on a
      [Server]: the manager's world, the user database and its file. A
      handler takes the headers it reads and the JSON object of the body;
      bodies that are not JSON objects, and the exceptions they raise, are
      not modelled. *)

From stdpp Require Import base option list gmap fin_maps strings pretty.
From Equations Require Import Equations.
From Stdlib Require Import ZArith Lia.

Set Default Proof Using "Type".

(** ** Configuration *)

Definition ROOM_TIMEOUT : Z := 600.
Definition MAX_ROOMS : nat := 1000.
Definition MAX_PLAYERS_PER_ROOM : nat := 2.

(** ** Data model *)

(** The JSON values a client can put in [host_info]. [JNull] is Python's
    [None]. *)
Inductive json : Type :=
  | JNull
  | JInt (n : Z)
  | JStr (s : string).

(** [d.get(key)] and [d.get(key, fallback)] on a dictionary of JSON
    values: the fallback is used only when the key is absent. *)
Definition dict_get (d : gmap string json) (key : string) (fallback : json) : json :=
  match d !! key with
  | Some v => v
  | None => fallback
  end.

Record Host : Type := mkHost {
  host_name : string;
  host_ip : json;
  host_port : json;
  host_public_ip : json
}.

Record Room : Type := mkRoom {
  host : Host;
  players : list string;
  status : string;
  created_at : Z;
  last_activity : Z;
  max_players : nat
}.

Definition set_players (l : list string) (r : Room) : Room :=
  mkRoom (host r) l (status r) (created_at r) (last_activity r) (max_players r).

Definition set_status (s : string) (r : Room) : Room :=
  mkRoom (host r) (players r) s (created_at r) (last_activity r) (max_players r).

Definition set_last_activity (t : Z) (r : Room) : Room :=
  mkRoom (host r) (players r) (status r) (created_at r) t (max_players r).

(** ** The world the manager runs in *)

Record World : Type := mkWorld {
  active_rooms : gmap string Room;
  rooms_file : list (gmap string Room);
  wall_clock : nat → Z;
  clock_reads : nat;
  uuid_source : nat → string;
  uuid_reads : nat
}.

Definition M (A : Type) : Type := World → A * World.

Global Instance M_ret : MRet M := λ A x w, (x, w).
Global Instance M_bind : MBind M := λ A B f m w, let '(x, w') := m w in f x w'.

(** [active_rooms], read. *)
Definition read_rooms : M (gmap string Room) := λ w, (active_rooms w, w).

(** [active_rooms], replaced. *)
Definition write_rooms (rooms : gmap string Room) : M unit := λ w,
  (tt, mkWorld rooms (rooms_file w) (wall_clock w) (clock_reads w)
               (uuid_source w) (uuid_reads w)).

(** [datetime.now()], in microseconds. *)
Definition datetime_now : M Z := λ w,
  (wall_clock w (clock_reads w),
   mkWorld (active_rooms w) (rooms_file w) (wall_clock w) (S (clock_reads w))
           (uuid_source w) (uuid_reads w)).

(** [uuid.uuid4().hex[:4]]. *)
Definition uuid4_hex4 : M string := λ w,
  (uuid_source w (uuid_reads w),
   mkWorld (active_rooms w) (rooms_file w) (wall_clock w) (clock_reads w)
           (uuid_source w) (S (uuid_reads w))).

(** [save_rooms]: dumps the whole of [active_rooms]. *)
Definition save_rooms : M unit := λ w,
  (tt, mkWorld (active_rooms w) (rooms_file w ++ [active_rooms w]) (wall_clock w)
               (clock_reads w) (uuid_source w) (uuid_reads w)).

(** ** Replies *)

(** Every operation answers [{"success": True, ...}] or
    [{"success": False, "error": msg}]. *)
Inductive Response (A : Type) : Type :=
  | Success (payload : A)
  | Failure (error : string).
Global Arguments Success {A} payload.
Global Arguments Failure {A} error.

Definition succeeded {A} (r : Response A) : bool :=
  match r with Success _ => true | Failure _ => false end.

Module Err.
Definition CapacityExceeded {A} : Response A := Failure "Server at maximum capacity".
Definition CodeConflict {A} : Response A := Failure "Room code already exists".
Definition RoomNotFound {A} : Response A := Failure "Room not found".
Definition RoomNotAcceptingPlayers {A} : Response A := Failure "Room is not accepting players".
Definition RoomFull {A} : Response A := Failure "Room is full".
End Err.

Record Created : Type := mkCreated {
  created_room_code : string;
  created_message : string
}.

Record Joined : Type := mkJoined {
  joined_host_ip : json;
  joined_host_port : json;
  joined_public_ip : json;
  joined_players : list string;
  joined_status : string;
  joined_player_name : string;
  joined_name_changed : bool
}.

Record Listing : Type := mkListing {
  listing_rooms : gmap string Room;
  listing_total : nat
}.

(** ** Operations *)

Definition create_room (room_code player_name : string) (host_info : gmap string json)
    : M (Response Created) :=
  rooms ← read_rooms;
  if bool_decide (MAX_ROOMS ≤ size rooms) then mret Err.CapacityExceeded
  else if bool_decide (is_Some (rooms !! room_code)) then mret Err.CodeConflict
  else
    let new_host := mkHost player_name
                           (dict_get host_info "ip" JNull)
                           (dict_get host_info "port" (JInt 5555))
                           (dict_get host_info "public_ip" JNull) in
    created ← datetime_now;
    active ← datetime_now;
    write_rooms (<[room_code := mkRoom new_host [player_name] "waiting" created active
                                       MAX_PLAYERS_PER_ROOM]> rooms);;
    save_rooms;;
    mret (Success (mkCreated room_code "Room created successfully")).

(** The renaming loop of [join_room]. [final_name] and [suffix] are the
    loop variables; one unfolding is one evaluation of the loop test
    followed, when it holds, by one run of the loop body. The body stops
    at [suffix > 100], which bounds the recursion. *)
Equations? rename_loop (roster : list string) (original_name final_name : string)
    (suffix : nat) : M string by wf (101 - suffix) lt :=
  rename_loop roster original_name final_name suffix
    with bool_decide (final_name ∈ roster) => {
    | false => mret final_name
    | true with decide (100 < suffix + 1) => {
      | left _ =>
          token ← uuid4_hex4;
          mret (original_name +:+ "_" +:+ token)
      | right _ =>
          rename_loop roster original_name
                      (original_name +:+ "_" +:+ pretty suffix) (suffix + 1) } }.
Proof. lia. Qed.

Definition join_room (room_code player_name : string) : M (Response Joined) :=
  rooms ← read_rooms;
  match rooms !! room_code with
  | None => mret Err.RoomNotFound
  | Some room =>
      if bool_decide (status room ≠ "waiting") then mret Err.RoomNotAcceptingPlayers
      else if bool_decide (max_players room ≤ length (players room)) then mret Err.RoomFull
      else
        let original_name := player_name in
        final_name ← rename_loop (players room) original_name player_name 1;
        now ← datetime_now;
        let room := set_last_activity now (set_players (players room ++ [final_name]) room) in
        let room :=
          if bool_decide (max_players room ≤ length (players room))
          then set_status "in_progress" room else room in
        write_rooms (<[room_code := room]> rooms);;
        save_rooms;;
        mret (Success (mkJoined (host_ip (host room)) (host_port (host room))
                                (host_public_ip (host room)) (players room) (status room)
                                final_name
                                (bool_decide (final_name ≠ original_name))))
  end.

Definition update_room_status (room_code new_status : string) : M (Response unit) :=
  rooms ← read_rooms;
  match rooms !! room_code with
  | None => mret Err.RoomNotFound
  | Some room =>
      let room := set_status new_status room in
      now ← datetime_now;
      write_rooms (<[room_code := set_last_activity now room]> rooms);;
      save_rooms;;
      mret (Success tt)
  end.

Definition close_room (room_code : string) : M (Response unit) :=
  rooms ← read_rooms;
  if bool_decide (is_Some (rooms !! room_code)) then
    write_rooms (delete room_code rooms);;
    save_rooms;;
    mret (Success tt)
  else mret Err.RoomNotFound.

Definition get_room_info (room_code : string) : M (Response Room) :=
  rooms ← read_rooms;
  match rooms !! room_code with
  | Some room => mret (Success room)
  | None => mret Err.RoomNotFound
  end.

Definition list_rooms : M Listing :=
  rooms ← read_rooms;
  mret (mkListing rooms (size rooms)).

(** [(now - last_activity).total_seconds() > ROOM_TIMEOUT]. Both instants
    are in microseconds. [total_seconds] divides the difference by [10^6]
    and rounds to the nearest float; 600 is a float and the floats around
    it are far closer together than a microsecond, so the test holds
    exactly when the difference exceeds 600 000 000 microseconds. *)
Definition timed_out (now : Z) (room : Room) : bool :=
  bool_decide (ROOM_TIMEOUT * 1000000 < now - last_activity room)%Z.

Definition cleanup_old_rooms : M nat :=
  now ← datetime_now;
  rooms ← read_rooms;
  let to_remove := (filter (λ item, timed_out now item.2 = true) (map_to_list rooms)).*1 in
  write_rooms (foldl (λ m code, delete code m) rooms to_remove);;
  (if bool_decide (to_remove ≠ []) then save_rooms else mret tt);;
  mret (length to_remove).

(** ** Running the manager *)

(** One call into the manager, as the request routes and the clean-up
    thread make them. *)
Inductive Call : Type :=
  | CreateRoom (room_code player_name : string) (host_info : gmap string json)
  | JoinRoom (room_code player_name : string)
  | UpdateRoomStatus (room_code new_status : string)
  | CloseRoom (room_code : string)
  | ReapExpired.

(** [mutated] tells whether the call changed [active_rooms]: the
    [success] flag of the reply, or a non-zero count for the clean-up. *)
Definition call (c : Call) : M bool :=
  match c with
  | CreateRoom code name info => r ← create_room code name info; mret (succeeded r)
  | JoinRoom code name => r ← join_room code name; mret (succeeded r)
  | UpdateRoomStatus code st => r ← update_room_status code st; mret (succeeded r)
  | CloseRoom code => r ← close_room code; mret (succeeded r)
  | ReapExpired => n ← cleanup_old_rooms; mret (bool_decide (0 < n))
  end.

Fixpoint run (cs : list Call) (w : World) : World :=
  match cs with
  | [] => w
  | c :: cs => run cs (call c w).2
  end.

(** A world with no rooms, nothing written, and the given oracles. *)
Definition fresh_world (clock : nat → Z) (uuids : nat → string) : World :=
  mkWorld ∅ [] clock 0 uuids 0.

(** [load_rooms], run when the manager is built: the registry becomes what
    the rooms file holds, and empty when there is no file. The file holds
    what the last [save_rooms] dumped; [json.load] gives back the
    dictionary [json.dump] was given. *)
Definition load_rooms : M unit := λ w,
  (tt, mkWorld (match last (rooms_file w) with
                | Some data => data
                | None => ∅
                end)
               (rooms_file w) (wall_clock w) (clock_reads w)
               (uuid_source w) (uuid_reads w)).

(** ** The server around the manager *)

(** Python's truth value of a JSON value: [None], [0] and [""] are
    false. *)
Definition truthy (v : json) : bool :=
  match v with
  | JNull => false
  | JInt n => bool_decide (n ≠ 0%Z)
  | JStr s => bool_decide (s ≠ "")
  end.

(** What a handler reads of a request besides its JSON body: three
    headers, absent ([None]) or with their text, and the peer's address.
    Header text is Latin-1, one character per byte, as WSGI hands it
    over. *)
Record Request : Type := mkRequest {
  x_forwarded_for : option string;
  x_real_ip : option string;
  user_agent : option string;
  remote_addr : option string
}.

(** The truth value of [headers.get(name)]: false for a header that is
    absent or empty. *)
Definition present (header : option string) : bool :=
  match header with
  | Some text => bool_decide (text ≠ "")
  | None => false
  end.

(** [str.isspace] on the characters a header can hold: tab to carriage
    return, the four separators 28 to 31, the space, NEL and the
    no-break space. *)
Definition is_space (a : Ascii.ascii) : bool :=
  let n := Ascii.nat_of_ascii a in
  (9 <=? n) && (n <=? 13) || (28 <=? n) && (n <=? 31)
  || (n =? 32) || (n =? 133) || (n =? 160).

Fixpoint lstrip (s : string) : string :=
  match s with
  | String a rest => if is_space a then lstrip rest else s
  | EmptyString => EmptyString
  end.

Fixpoint rstrip (s : string) : string :=
  match s with
  | String a rest =>
      match rstrip rest with
      | EmptyString => if is_space a then EmptyString else String a EmptyString
      | kept => String a kept
      end
  | EmptyString => EmptyString
  end.

(** [s.strip()]. *)
Definition strip (s : string) : string := rstrip (lstrip s).

(** The character [","], number 44. *)
Definition comma : Ascii.ascii :=
  Ascii.Ascii false false true true false true false false.

(** [s.split(',')[0]]: what comes before the first comma, all of [s] if
    it has none. *)
Fixpoint before_comma (s : string) : string :=
  match s with
  | String a rest =>
      if bool_decide (a = comma) then EmptyString else String a (before_comma rest)
  | EmptyString => EmptyString
  end.

Definition json_of_text (t : option string) : json :=
  match t with
  | Some s => JStr s
  | None => JNull
  end.

Record UserEntry : Type := mkUserEntry {
  entry_player_name : string;
  entry_public_ip : json;
  entry_mac_address : json;
  entry_timestamp : Z;
  entry_user_agent : string;
  entry_session_id : string
}.

(** The process: the manager's world, the user database and the file it
    is dumped to (every dump, oldest first), and the source of session
    identifiers ([str(uuid.uuid4())]). *)
Record Server : Type := mkServer {
  world : World;
  user_database : list UserEntry;
  user_tracking_file : list (list UserEntry);
  session_source : nat → string;
  session_reads : nat
}.

Definition Srv (A : Type) : Type := Server → A * Server.

Global Instance Srv_ret : MRet Srv := λ A x sv, (x, sv).
Global Instance Srv_bind : MBind Srv := λ A B f m sv, let '(x, sv') := m sv in f x sv'.

(** A call into the room manager, from a handler. *)
Definition room_manager {A} (m : M A) : Srv A := λ sv,
  let '(x, w') := m (world sv) in
  (x, mkServer w' (user_database sv) (user_tracking_file sv)
               (session_source sv) (session_reads sv)).

Module UserTracker.

(** [str(uuid.uuid4())]. *)
Definition new_session_id : Srv string := λ sv,
  (session_source sv (session_reads sv),
   mkServer (world sv) (user_database sv) (user_tracking_file sv)
            (session_source sv) (S (session_reads sv))).

Definition append_user (entry : UserEntry) : Srv unit := λ sv,
  (tt, mkServer (world sv) (user_database sv ++ [entry]) (user_tracking_file sv)
                (session_source sv) (session_reads sv)).

Definition save_data : Srv unit := λ sv,
  (tt, mkServer (world sv) (user_database sv)
                (user_tracking_file sv ++ [user_database sv])
                (session_source sv) (session_reads sv)).


Definition get_public_ip (request_obj : Request) : option string :=
  if present (x_forwarded_for request_obj) then
    (λ forwarded, strip (before_comma forwarded)) <$> x_forwarded_for request_obj
  else if present (x_real_ip request_obj) then
    x_real_ip request_obj
  else
    remote_addr request_obj.

Definition track_user (player_name : string) (request_obj : Request) (mac_address : json)
    : Srv UserEntry :=
  let public_ip := get_public_ip request_obj in
  timestamp ← room_manager datetime_now;
  session_id ← new_session_id;
  let user_entry :=
    mkUserEntry player_name (json_of_text public_ip)
                (if truthy mac_address then mac_address else JStr "Unknown")
                timestamp
                (default "Unknown" (user_agent request_obj))
                session_id in
  append_user user_entry;;
  save_data;;
  mret user_entry.

End UserTracker.

(** The request handlers. Each takes the request and, where it reads
    one, the JSON object of its body, and gives the reply and the HTTP
    status. The registry is keyed by strings and holds strings: a handler
    given a body in which a room code, a player name or a status is a
    non-zero number is outside this model, and the result is [None]. *)
Module Route.

Definition create_room (request : Request) (data : gmap string json)
    : Srv (option (Response Created * nat)) :=
  let room_code := dict_get data "room_code" JNull in
  let player_name := dict_get data "player_name" JNull in
  let mac_address := dict_get data "mac_address" JNull in
  let host_ip := dict_get data "host_ip" JNull in
  let host_port := dict_get data "host_port" (JInt 5555) in
  if negb (truthy room_code) || negb (truthy player_name) then
    mret (Some (Failure "Missing room_code or player_name", 400))
  else
    match room_code, player_name with
    | JStr room_code, JStr player_name =>
        let public_ip := UserTracker.get_public_ip request in
        UserTracker.track_user player_name request mac_address;;
        let host_info : gmap string json :=
          <["ip" := host_ip]> (<["port" := host_port]>
            (<["public_ip" := json_of_text public_ip]> ∅)) in
        result ← room_manager (create_room room_code player_name host_info);
        if succeeded result then mret (Some (result, 201))
        else mret (Some (result, 400))
    | _, _ => mret None
    end.

Definition join_room (request : Request) (data : gmap string json)
    : Srv (option (Response Joined * nat)) :=
  let room_code := dict_get data "room_code" JNull in
  let player_name := dict_get data "player_name" JNull in
  let mac_address := dict_get data "mac_address" JNull in
  if negb (truthy room_code) || negb (truthy player_name) then
    mret (Some (Failure "Missing room_code or player_name", 400))
  else
    match room_code, player_name with
    | JStr room_code, JStr player_name =>
        UserTracker.track_user player_name request mac_address;;
        result ← room_manager (join_room room_code player_name);
        if succeeded result then mret (Some (result, 200))
        else mret (Some (result, 400))
    | _, _ => mret None
    end.

Definition update_room (data : gmap string json)
    : Srv (option (Response unit * nat)) :=
  let room_code := dict_get data "room_code" JNull in
  let status := dict_get data "status" JNull in
  if negb (truthy room_code) || negb (truthy status) then
    mret (Some (Failure "Missing room_code or status", 400))
  else
    match room_code, status with
    | JStr room_code, JStr status =>
        result ← room_manager (update_room_status room_code status);
        mret (Some (result, 200))
    | _, _ => mret None
    end.

Definition close_room (data : gmap string json)
    : Srv (option (Response unit * nat)) :=
  let room_code := dict_get data "room_code" JNull in
  if negb (truthy room_code) then
    mret (Some (Failure "Missing room_code", 400))
  else
    match room_code with
    | JStr room_code =>
        result ← room_manager (close_room room_code);
        mret (Some (result, 200))
    | _ => mret None
    end.

(** [GET /api/room/<room_code>]: the code is part of the path. *)
Definition get_room (room_code : string) : Srv (Response Room * nat) :=
  result ← room_manager (get_room_info room_code);
  if succeeded result then mret (result, 200) else mret (result, 404).

Definition list_rooms : Srv (Listing * nat) :=
  result ← room_manager list_rooms;
  mret (result, 200).

End Route.




(** A server that has just started with no files on disk. *)
Definition fresh_server (clock : nat → Z) (uuids sessions : nat → string) : Server :=
  mkServer (fresh_world clock uuids) [] [] sessions 0.

(** ** Vocabulary of the properties *)

(** The characters of a text, in order. *)
Definition chars (s : string) : list Ascii.ascii := String.list_ascii_of_string s.


(** The field is missing from the body, or null, or empty, or zero. *)
Definition blank (data : gmap string json) (key : string) : Prop :=
  data !! key = None ∨ data !! key = Some JNull ∨
  data !! key = Some (JStr "") ∨ data !! key = Some (JInt 0).

(** The entry [track_user] writes for a player, and the server it
    leaves: one reading of the clock and one session identifier used, the
    entry at the end of the database, the database dumped once. *)
Definition tracked_entry (player_name : string) (request : Request) (mac_address : json)
    (sv : Server) : UserEntry :=
  mkUserEntry player_name
              (json_of_text (UserTracker.get_public_ip request))
              (if truthy mac_address then mac_address else JStr "Unknown")
              (wall_clock (world sv) (clock_reads (world sv)))
              (default "Unknown" (user_agent request))
              (session_source sv (session_reads sv)).

Definition after_tracking (entry : UserEntry) (sv : Server) : Server :=
  mkServer (datetime_now (world sv)).2
           (user_database sv ++ [entry])
           (user_tracking_file sv ++ [user_database sv ++ [entry]])
           (session_source sv) (S (session_reads sv)).

(** The [host_info] the create handler builds. *)
Definition route_host_info (request : Request) (data : gmap string json)
    : gmap string json :=
  <["ip" := dict_get data "host_ip" JNull]>
    (<["port" := dict_get data "host_port" (JInt 5555)]>
       (<["public_ip" := json_of_text (UserTracker.get_public_ip request)]> ∅)).




(** The room [create_room] stores when it succeeds from world [w]: the
    two timestamps are two successive readings of the clock. *)
Definition created_room (player_name : string) (host_info : gmap string json)
    (w : World) : Room :=
  mkRoom (mkHost player_name
                 (dict_get host_info "ip" JNull)
                 (dict_get host_info "port" (JInt 5555))
                 (dict_get host_info "public_ip" JNull))
         [player_name] "waiting"
         (wall_clock w (clock_reads w)) (wall_clock w (S (clock_reads w)))
         MAX_PLAYERS_PER_ROOM.

(** The names the renaming loop goes through: the requested name, then
    [name_1], [name_2], ... *)
Definition candidate (name : string) (k : nat) : string :=
  match k with
  | 0 => name
  | S _ => name +:+ "_" +:+ pretty k
  end.

(** The status values the source lists next to the ["status"] key, in
    their order. *)
Definition status_rank (s : string) : option nat :=
  if bool_decide (s = "waiting") then Some 0
  else if bool_decide (s = "in_progress") then Some 1
  else if bool_decide (s = "completed") then Some 2
  else None.

Definition recognized_status (s : string) : Prop := is_Some (status_rank s).

(** [status_le s1 s2]: [s2] is [s1] or comes later in the order. *)
Definition status_le (s1 s2 : string) : Prop :=
  s1 = s2 ∨ ∃ a b, status_rank s1 = Some a ∧ status_rank s2 = Some b ∧ a ≤ b.

Definition is_update (c : Call) : bool :=
  match c with UpdateRoomStatus _ _ => true | _ => false end.

(** The room registered under [code] exists before, between and after
    the calls [cs] run from [w]: it is one room all along. *)
Fixpoint live_throughout (code : string) (cs : list Call) (w : World) : Prop :=
  is_Some (active_rooms w !! code) ∧
  match cs with
  | [] => True
  | c :: cs => live_throughout code cs (call c w).2
  end.

(** The room a successful [join_room] stores in place of [room], for the
    name [final_name] and the clock reading [now]. *)
Definition joined_room (final_name : string) (now : Z) (room : Room) : Room :=
  mkRoom (host room) (players room ++ [final_name])
         (if bool_decide (max_players room ≤ length (players room ++ [final_name]))
          then "in_progress" else status room)
         (created_at room) now (max_players room).

(** Every room at capacity has been started. *)
Definition full_rooms_started (w : World) : Prop :=
  ∀ code room, active_rooms w !! code = Some room →
    max_players room ≤ length (players room) → status room = "in_progress".

(** Every registered room has one of the three listed statuses. *)
Definition statuses_recognized (w : World) : Prop :=
  ∀ code room, active_rooms w !! code = Some room → recognized_status (status room).

(** A call that, if it is a status update, carries a listed status. *)
Definition carries_listed_status (c : Call) : Prop :=
  match c with
  | UpdateRoomStatus _ new_status => recognized_status new_status
  | _ => True
  end.

(** The code a call is about, if any. *)
Definition target (c : Call) : option string :=
  match c with
  | CreateRoom code _ _ | JoinRoom code _ | UpdateRoomStatus code _ | CloseRoom code =>
      Some code
  | ReapExpired => None
  end.

(** A room as [create_room] and [join_room] make them: two seats, at
    least one of them taken, the first by the host, no name twice. *)
Definition room_well_formed (room : Room) : Prop :=
  max_players room = MAX_PLAYERS_PER_ROOM ∧
  head (players room) = Some (host_name (host room)) ∧
  length (players room) ≤ max_players room ∧
  NoDup (players room).

Definition rooms_well_formed (w : World) : Prop :=
  ∀ code room, active_rooms w !! code = Some room → room_well_formed room.

(** The rooms file holds the registry: what [load_rooms] would find. *)
Definition file_in_sync (w : World) : Prop :=
  match last (rooms_file w) with
  | Some data => data = active_rooms w
  | None => active_rooms w = ∅
  end.

(** ** The scenarios of the specification *)

Definition demo_clock (n : nat) : Z := (1700000000000000 + 1000 * Z.of_nat n)%Z.
Definition demo_uuids (n : nat) : string := "c0de".
Definition demo_world : World := fresh_world demo_clock demo_uuids.

(** The room Alice has just created, whatever its code. *)
Definition waiting_room : Room :=
  mkRoom (mkHost "Alice" JNull (JInt 5555) JNull) ["Alice"] "waiting"
         (demo_clock 0) (demo_clock 1) 2.

(** Scenario A: Alice creates ["ABCD"], then Bob joins it. *)
Definition scenario_A_created : World :=
  run [CreateRoom "ABCD" "Alice" ∅] demo_world.

Definition scenario_A : World :=
  run [CreateRoom "ABCD" "Alice" ∅; JoinRoom "ABCD" "Bob"] demo_world.

Definition scenario_A_room : Room :=
  mkRoom (mkHost "Alice" JNull (JInt 5555) JNull) ["Alice"; "Bob"] "in_progress"
         (demo_clock 0) (demo_clock 2) 2.

(** Scenario C: Alice waits alone in ["XYZ"]. *)
Definition scenario_C : World := run [CreateRoom "XYZ" "Alice" ∅] demo_world.

(** Scenario E: one room, last active 601 seconds before the clock's
    next reading. *)
Definition scenario_E : World :=
  mkWorld {["ABCD" := waiting_room]} []
          (λ _, demo_clock 1 + 601 * 1000000)%Z 0 demo_uuids 0.

(** The same room, last active exactly 600 seconds before the reading. *)
Definition scenario_E_boundary : World :=
  mkWorld {["ABCD" := waiting_room]} []
          (λ _, demo_clock 1 + 600 * 1000000)%Z 0 demo_uuids 0.

(** A registry at capacity: [MAX_ROOMS] rooms, under the codes ["0"] to
    ["999"]. *)
Definition crowded_rooms : gmap string Room :=
  foldr (λ n rooms, <[pretty n := waiting_room]> rooms) ∅ (seq 0 MAX_ROOMS).

Definition crowded_world : World :=
  mkWorld crowded_rooms [] demo_clock 0 demo_uuids 0.

Definition demo_sessions (n : nat) : string := "session-" +:+ pretty n.
Definition demo_server : Server := fresh_server demo_clock demo_uuids demo_sessions.

(** A client behind two proxies. *)
Definition demo_request : Request :=
  mkRequest (Some " 203.0.113.7 , 10.0.0.1") (Some "10.0.0.1") (Some "pong/1.0")
            (Some "127.0.0.1").

Definition demo_create_body : gmap string json :=
  <["room_code" := JStr "ABCD"]> (<["player_name" := JStr "Alice"]>
    (<["host_ip" := JStr "192.168.1.20"]> (<["public_ip" := JStr "6.6.6.6"]> ∅))).

Definition demo_join_body : gmap string json :=
  <["room_code" := JStr "ABCD"]> (<["player_name" := JStr "Bob"]> ∅).

(** * Properties *)

(** ** Unfolding the operations *)

Ltac unfold_m :=
  unfold mbind, M_bind, mret, M_ret, read_rooms, write_rooms, save_rooms,
         datetime_now, uuid4_hex4; simpl.

Lemma world_eta (w : World) :
  mkWorld (active_rooms w) (rooms_file w) (wall_clock w) (clock_reads w)
          (uuid_source w) (uuid_reads w) = w.
Proof. by destruct w. Qed.

Section create_room.
Context (room_code player_name : string) (host_info : gmap string json) (w : World).

Lemma create_room_at_capacity :
  MAX_ROOMS ≤ size (active_rooms w) →
  create_room room_code player_name host_info w = (Err.CapacityExceeded, w).
Proof.
  intros Hfull. unfold create_room. unfold_m.
  by rewrite bool_decide_eq_true_2.
Qed.

Lemma create_room_conflict :
  size (active_rooms w) < MAX_ROOMS →
  is_Some (active_rooms w !! room_code) →
  create_room room_code player_name host_info w = (Err.CodeConflict, w).
Proof.
  intros Hroom Hin. unfold create_room. unfold_m.
  rewrite bool_decide_eq_false_2 by lia.
  by rewrite bool_decide_eq_true_2.
Qed.

Lemma create_room_fresh :
  size (active_rooms w) < MAX_ROOMS →
  active_rooms w !! room_code = None →
  create_room room_code player_name host_info w =
    (Success (mkCreated room_code "Room created successfully"),
     mkWorld (<[room_code := created_room player_name host_info w]> (active_rooms w))
             (rooms_file w ++ [<[room_code := created_room player_name host_info w]> (active_rooms w)])
             (wall_clock w) (S (S (clock_reads w)))
             (uuid_source w) (uuid_reads w)).
Proof.
  intros Hroom Hnew. unfold create_room. unfold_m.
  rewrite bool_decide_eq_false_2 by lia.
  rewrite bool_decide_eq_false_2; [done|].
  rewrite Hnew. by intros [? ?].
Qed.

Lemma create_room_cases :
  (MAX_ROOMS ≤ size (active_rooms w)) ∨
  (size (active_rooms w) < MAX_ROOMS ∧ is_Some (active_rooms w !! room_code)) ∨
  (size (active_rooms w) < MAX_ROOMS ∧ active_rooms w !! room_code = None).
Proof.
  destruct (decide (MAX_ROOMS ≤ size (active_rooms w))); [by left|right].
  destruct (active_rooms w !! room_code) eqn:E; [left|right]; split; eauto; lia.
Qed.
End create_room.

(** ** The renaming loop *)

Lemma append_empty_r (s : string) : s +:+ "" = s.
Proof.
  induction s as [|a s IH]; [done|].
  change (String a (s +:+ "") = String a s). by f_equal.
Qed.

Lemma append_nonempty_ne (s t : string) : t ≠ "" → s +:+ t ≠ s.
Proof.
  intros Ht Heq. apply Ht, (inj (String.append s)).
  by rewrite append_empty_r.
Qed.

Lemma candidate_succ_ne (name : string) (k : nat) : candidate name (S k) ≠ name.
Proof. unfold candidate. apply append_nonempty_ne. discriminate. Qed.

Global Instance candidate_inj (name : string) : Inj (=) (=) (candidate name).
Proof.
  intros [|i] [|j] Heq; [done| | |].
  - symmetry in Heq. by apply candidate_succ_ne in Heq.
  - by apply candidate_succ_ne in Heq.
  - unfold candidate in Heq.
    apply (inj (String.append name)), (inj (String.append "_")) in Heq.
    by apply (inj pretty) in Heq.
Qed.

Lemma rename_loop_free (roster : list string) (name final : string) (suffix : nat)
    (w : World) :
  final ∉ roster → rename_loop roster name final suffix w = (final, w).
Proof.
  intros Hfree. rewrite rename_loop_equation_1.
  by rewrite bool_decide_eq_false_2.
Qed.

Lemma rename_loop_taken (roster : list string) (name final : string) (suffix : nat)
    (w : World) :
  final ∈ roster → suffix + 1 ≤ 100 →
  rename_loop roster name final suffix w =
    rename_loop roster name (name +:+ "_" +:+ pretty suffix) (suffix + 1) w.
Proof.
  intros Htaken Hsuffix. rewrite rename_loop_equation_1.
  rewrite bool_decide_eq_true_2 by done. simpl.
  by destruct (decide (100 < suffix + 1)); [lia|].
Qed.

Lemma rename_loop_exhausted (roster : list string) (name final : string) (suffix : nat)
    (w : World) :
  final ∈ roster → 100 < suffix + 1 →
  rename_loop roster name final suffix w =
    (name +:+ "_" +:+ uuid_source w (uuid_reads w),
     mkWorld (active_rooms w) (rooms_file w) (wall_clock w) (clock_reads w)
             (uuid_source w) (S (uuid_reads w))).
Proof.
  intros Htaken Hsuffix. rewrite rename_loop_equation_1.
  rewrite bool_decide_eq_true_2 by done. simpl.
  by destruct (decide (100 < suffix + 1)); [|lia].
Qed.

(** At the head of the loop with [final_name] the [j]-th candidate and
    [suffix = j + 1]: the loop walks to the first free candidate, if there
    is one before the hundredth. *)
Lemma rename_loop_walk (roster : list string) (name : string) (w : World) (d j : nat) :
  j + d < 100 →
  candidate name (j + d) ∉ roster →
  (∀ i, j ≤ i < j + d → candidate name i ∈ roster) →
  rename_loop roster name (candidate name j) (S j) w = (candidate name (j + d), w).
Proof.
  revert j. induction d as [|d IH]; intros j Hlt Hfree Htaken.
  - rewrite Nat.add_0_r in *. by apply rename_loop_free.
  - rewrite rename_loop_taken; [|apply Htaken; lia|lia].
    replace (S j + 1) with (S (S j)) by lia.
    replace (j + S d) with (S j + d) in * by lia.
    apply (IH (S j)); [lia|done|].
    intros i Hi. apply Htaken. lia.
Qed.

(** Either the first [n] candidates are all taken, or one of them is the
    first free one. *)
Lemma first_free_candidate (roster : list string) (name : string) (n : nat) :
  (∀ i, i < n → candidate name i ∈ roster) ∨
  (∃ k, k < n ∧ (candidate name k ∉ roster) ∧ (∀ i, i < k → candidate name i ∈ roster)).
Proof.
  induction n as [|n [IH|(k & Hk & Hfree & Hmin)]].
  - left. intros i Hi. lia.
  - destruct (decide (candidate name n ∈ roster)) as [Hin|Hout].
    + left. intros i Hi. destruct (decide (i = n)) as [->|]; [done|]. apply IH. lia.
    + right. exists n. eauto.
  - right. exists k. split; [lia|done].
Qed.

(** A roster that holds the first [n] candidates has at least [n] entries. *)
Lemma candidates_fill_roster (roster : list string) (name : string) (n : nat) :
  (∀ i, i < n → candidate name i ∈ roster) → n ≤ length roster.
Proof.
  intros Hall.
  rewrite <- (length_seq n 0), <- (length_fmap (candidate name)).
  apply submseteq_length, NoDup_submseteq.
  - apply (NoDup_fmap_2 _), NoDup_seq.
  - intros x (i & -> & Hi)%list_elem_of_fmap. apply Hall.
    apply elem_of_seq in Hi. lia.
Qed.

(** The loop touches nothing but the uuid counter. *)
Lemma rename_loop_frame (roster : list string) (name final : string) (suffix : nat)
    (w : World) :
  ∃ reads,
    (rename_loop roster name final suffix w).2 =
      mkWorld (active_rooms w) (rooms_file w) (wall_clock w) (clock_reads w)
              (uuid_source w) reads.
Proof.
  remember (101 - suffix) as fuel eqn:Hfuel.
  revert final suffix Hfuel.
  induction fuel as [fuel IH] using lt_wf_ind; intros final suffix ->.
  destruct (decide (final ∈ roster)) as [Hin|Hout].
  - destruct (decide (100 < suffix + 1)) as [Hstop|Hgo].
    + rewrite rename_loop_exhausted by done. eauto.
    + rewrite rename_loop_taken by (done || lia).
      apply (IH (101 - (suffix + 1))); [lia|done].
  - rewrite rename_loop_free by done. exists (uuid_reads w). simpl.
    by rewrite world_eta.
Qed.

(** ** Unfolding [join_room] *)

Section join_room.
Context (room_code player_name : string) (w : World).

Lemma join_room_not_found :
  active_rooms w !! room_code = None →
  join_room room_code player_name w = (Err.RoomNotFound, w).
Proof. intros Hnone. unfold join_room. unfold_m. by rewrite Hnone. Qed.

Context (room : Room) (Hroom : active_rooms w !! room_code = Some room).

Lemma join_room_not_waiting :
  status room ≠ "waiting" →
  join_room room_code player_name w = (Err.RoomNotAcceptingPlayers, w).
Proof using Hroom.
  intros Hstatus. unfold join_room. unfold_m. rewrite Hroom.
  by rewrite bool_decide_eq_true_2.
Qed.

Lemma join_room_full :
  status room = "waiting" →
  max_players room ≤ length (players room) →
  join_room room_code player_name w = (Err.RoomFull, w).
Proof using Hroom.
  intros Hstatus Hfull. unfold join_room. unfold_m. rewrite Hroom.
  rewrite bool_decide_eq_false_2 by (by intros []).
  by rewrite bool_decide_eq_true_2.
Qed.

Lemma join_room_accepted :
  status room = "waiting" →
  length (players room) < max_players room →
  let resolved := rename_loop (players room) player_name player_name 1 w in
  let room' := joined_room resolved.1 (wall_clock w (clock_reads w)) room in
  join_room room_code player_name w =
    (Success (mkJoined (host_ip (host room)) (host_port (host room))
                       (host_public_ip (host room)) (players room') (status room')
                       resolved.1 (bool_decide (resolved.1 ≠ player_name))),
     mkWorld (<[room_code := room']> (active_rooms w))
             (rooms_file w ++ [<[room_code := room']> (active_rooms w)])
             (wall_clock w) (S (clock_reads w))
             (uuid_source w) (uuid_reads resolved.2)).
Proof using Hroom.
  intros Hstatus Hspare. cbv zeta. unfold join_room. unfold_m. rewrite Hroom.
  rewrite bool_decide_eq_false_2 by (by intros []).
  rewrite bool_decide_eq_false_2 by lia.
  destruct (rename_loop_frame (players room) player_name player_name 1 w)
    as [reads Hframe].
  destruct (rename_loop (players room) player_name player_name 1 w) as [final w1].
  simpl in Hframe. subst w1. simpl. unfold joined_room.
  by destruct (bool_decide (max_players room ≤ length (players room ++ [final]))).
Qed.
End join_room.

(** ** Unfolding the other operations *)

Section other_operations.
Context (room_code : string) (w : World).

Lemma update_room_status_not_found (new_status : string) :
  active_rooms w !! room_code = None →
  update_room_status room_code new_status w = (Err.RoomNotFound, w).
Proof. intros Hnone. unfold update_room_status. unfold_m. by rewrite Hnone. Qed.

Lemma update_room_status_found (new_status : string) (room : Room) :
  active_rooms w !! room_code = Some room →
  let room' := set_last_activity (wall_clock w (clock_reads w))
                                 (set_status new_status room) in
  update_room_status room_code new_status w =
    (Success tt,
     mkWorld (<[room_code := room']> (active_rooms w))
             (rooms_file w ++ [<[room_code := room']> (active_rooms w)])
             (wall_clock w) (S (clock_reads w)) (uuid_source w) (uuid_reads w)).
Proof. intros Hroom. unfold update_room_status. unfold_m. by rewrite Hroom. Qed.

Lemma close_room_not_found :
  active_rooms w !! room_code = None →
  close_room room_code w = (Err.RoomNotFound, w).
Proof.
  intros Hnone. unfold close_room. unfold_m.
  rewrite bool_decide_eq_false_2; [done|]. rewrite Hnone. by intros [? ?].
Qed.

Lemma close_room_found :
  is_Some (active_rooms w !! room_code) →
  close_room room_code w =
    (Success tt,
     mkWorld (delete room_code (active_rooms w))
             (rooms_file w ++ [delete room_code (active_rooms w)])
             (wall_clock w) (clock_reads w) (uuid_source w) (uuid_reads w)).
Proof.
  intros Hroom. unfold close_room. unfold_m. by rewrite bool_decide_eq_true_2.
Qed.
End other_operations.

(** ** Unfolding [cleanup_old_rooms] *)

Section cleanup.
Context (w : World).

Let now : Z := wall_clock w (clock_reads w).
Let stale (item : string * Room) : Prop := timed_out now item.2 = true.
Let to_remove : list string := (filter stale (map_to_list (active_rooms w))).*1.

Lemma cleanup_old_rooms_unfold :
  cleanup_old_rooms w =
    (length to_remove,
     let rooms' := foldl (λ m code, delete code m) (active_rooms w) to_remove in
     mkWorld rooms'
             (if bool_decide (to_remove ≠ []) then rooms_file w ++ [rooms']
              else rooms_file w)
             (wall_clock w) (S (clock_reads w)) (uuid_source w) (uuid_reads w)).
Proof.
  unfold cleanup_old_rooms. unfold_m. fold now. fold stale. fold to_remove.
  by destruct (bool_decide (to_remove ≠ [])).
Qed.

Lemma elem_of_to_remove (code : string) :
  code ∈ to_remove ↔
  ∃ room, active_rooms w !! code = Some room ∧ timed_out now room = true.
Proof.
  unfold to_remove. rewrite list_elem_of_fmap. split.
  - intros ([code' room] & -> & [Hstale Hin%elem_of_map_to_list]%list_elem_of_filter).
    eauto.
  - intros (room & Hin & Hstale). exists (code, room). split; [done|].
    apply list_elem_of_filter. split; [done|]. by apply elem_of_map_to_list.
Qed.

Lemma NoDup_to_remove : NoDup to_remove.
Proof.
  unfold to_remove.
  eapply sublist_NoDup; [apply (NoDup_fst_map_to_list (active_rooms w))|].
  apply fmap_sublist, sublist_filter.
Qed.

Lemma length_to_remove :
  length to_remove = size (filter stale (active_rooms w)).
Proof.
  unfold to_remove. rewrite length_fmap, map_filter_alt.
  rewrite map_size_list_to_map; [done|]. apply NoDup_to_remove.
Qed.
End cleanup.

Lemma lookup_foldl_delete (rooms : gmap string Room) (codes : list string) (code : string) :
  foldl (λ m c, delete c m) rooms codes !! code =
    if decide (code ∈ codes) then None else rooms !! code.
Proof.
  revert rooms. induction codes as [|c codes IH]; intros rooms.
  - destruct (decide (code ∈ [])) as [Hin|]; [|done]. by apply not_elem_of_nil in Hin.
  - change (foldl (λ m c, delete c m) (delete c rooms) codes !! code =
            if decide (code ∈ c :: codes) then None else rooms !! code).
    rewrite IH.
    destruct (decide (code ∈ codes)) as [Hin|Hout];
      destruct (decide (code ∈ c :: codes)) as [Hin'|Hout']; try done.
    + destruct Hout'. by right.
    + apply elem_of_cons in Hin' as [->|?]; [|done]. by rewrite lookup_delete_eq.
    + rewrite lookup_delete_ne; [done|]. intros ->. destruct Hout'. by left.
Qed.

(** What the clean-up leaves under each code. *)
Lemma cleanup_old_rooms_lookup (w : World) (code : string) :
  active_rooms (cleanup_old_rooms w).2 !! code =
    match active_rooms w !! code with
    | Some room => if timed_out (wall_clock w (clock_reads w)) room then None else Some room
    | None => None
    end.
Proof.
  rewrite cleanup_old_rooms_unfold. simpl. rewrite lookup_foldl_delete.
  destruct (decide _) as [Hin|Hout].
  - apply elem_of_to_remove in Hin as (room & -> & ->). done.
  - destruct (active_rooms w !! code) as [room|] eqn:Hroom; [|done].
    destruct (timed_out _ room) eqn:Hstale; [|done].
    destruct Hout. apply elem_of_to_remove. eauto.
Qed.

(** ** One call, seen from one room code *)

Lemma call_unfold (c : Call) (w : World) :
  call c w =
    match c with
    | CreateRoom code name info =>
        (succeeded (create_room code name info w).1, (create_room code name info w).2)
    | JoinRoom code name =>
        (succeeded (join_room code name w).1, (join_room code name w).2)
    | UpdateRoomStatus code st =>
        (succeeded (update_room_status code st w).1, (update_room_status code st w).2)
    | CloseRoom code =>
        (succeeded (close_room code w).1, (close_room code w).2)
    | ReapExpired =>
        (bool_decide (0 < (cleanup_old_rooms w).1), (cleanup_old_rooms w).2)
    end.
Proof.
  destruct c; unfold call; unfold_m.
  - by destruct (create_room _ _ _ w).
  - by destruct (join_room _ _ w).
  - by destruct (update_room_status _ _ w).
  - by destruct (close_room _ w).
  - by destruct (cleanup_old_rooms w).
Qed.

Lemma join_room_cases (room_code : string) (w : World) :
  active_rooms w !! room_code = None ∨
  ∃ room, active_rooms w !! room_code = Some room ∧
    (status room ≠ "waiting" ∨
     (status room = "waiting" ∧ max_players room ≤ length (players room)) ∨
     (status room = "waiting" ∧ length (players room) < max_players room)).
Proof.
  destruct (active_rooms w !! room_code) as [room|]; [right|by left].
  exists room. split; [done|].
  destruct (decide (status room = "waiting")); [right|by left].
  destruct (decide (max_players room ≤ length (players room))); [left|right];
    split; (done || lia).
Qed.

(** A room found under [code] after a call other than a status update
    was there before and untouched, or has just been created, or has
    just been joined. *)
Lemma call_lookup (c : Call) (w : World) (code : string) (room' : Room) :
  is_update c = false →
  active_rooms (call c w).2 !! code = Some room' →
  active_rooms w !! code = Some room' ∨
  (active_rooms w !! code = None ∧
   ∃ name info, room' = created_room name info w) ∨
  (∃ room final now,
     active_rooms w !! code = Some room ∧ status room = "waiting" ∧
     length (players room) < max_players room ∧
     room' = joined_room final now room).
Proof.
  intros Hc. rewrite call_unfold.
  destruct c as [rc name info|rc name|rc st|rc|]; [| | done | |]; simpl.
  - destruct (create_room_cases rc w) as [Hcap|[[Hlt Hin]|[Hlt Hnew]]].
    + rewrite create_room_at_capacity by done. auto.
    + rewrite create_room_conflict by done. auto.
    + rewrite create_room_fresh by done. simpl.
      destruct (decide (rc = code)) as [->|Hne].
      * rewrite lookup_insert_eq. intros [= <-]. right. left. eauto.
      * rewrite lookup_insert_ne by done. auto.
  - destruct (join_room_cases rc w)
      as [Hnone|(room & Hroom & [Hst|[[Hst Hfull]|[Hst Hspare]]])].
    + rewrite join_room_not_found by done. auto.
    + rewrite (join_room_not_waiting _ _ _ room) by done. auto.
    + rewrite (join_room_full _ _ _ room) by done. auto.
    + rewrite (join_room_accepted _ _ _ room) by done. simpl.
      destruct (decide (rc = code)) as [->|Hne].
      * rewrite lookup_insert_eq. intros [= <-]. right. right. eauto 10.
      * rewrite lookup_insert_ne by done. auto.
  - destruct (active_rooms w !! rc) as [room|] eqn:Hroom.
    + rewrite close_room_found by (by rewrite Hroom). simpl.
      intros [_ ?]%lookup_delete_Some. auto.
    + rewrite close_room_not_found by done. auto.
  - rewrite cleanup_old_rooms_lookup.
    destruct (active_rooms w !! code) as [room|]; [|done].
    destruct (timed_out _ room); [done|auto].
Qed.

Lemma call_keeps_full_rooms_started (c : Call) (w : World) :
  is_update c = false → full_rooms_started w → full_rooms_started (call c w).2.
Proof.
  intros Hc Hinv code room' Hlookup Hfull.
  destruct (call_lookup c w code room' Hc Hlookup)
    as [Hsame|[(_ & name & info & ->)|(room & final & now & _ & _ & _ & ->)]].
  - by eapply Hinv.
  - simpl in Hfull. unfold MAX_PLAYERS_PER_ROOM in Hfull. lia.
  - unfold joined_room in *. simpl in *. by rewrite bool_decide_eq_true_2.
Qed.

Lemma run_keeps_full_rooms_started (cs : list Call) (w : World) :
  Forall (λ c, is_update c = false) cs →
  full_rooms_started w → full_rooms_started (run cs w).
Proof.
  intros Hcs. revert w. induction Hcs as [|c cs Hc _ IH]; intros w Hinv; [done|].
  simpl. by apply IH, call_keeps_full_rooms_started.
Qed.

Lemma fresh_world_full_rooms_started (clock : nat → Z) (uuids : nat → string) :
  full_rooms_started (fresh_world clock uuids).
Proof. intros code room Hlookup. simpl in Hlookup. by rewrite lookup_empty in Hlookup. Qed.

(** * The claims *)

(** ** Capacity of a room *)

(** C1, as stated, fails: in scenario A the room ["ABCD"] holds
    [MAX_PLAYERS_PER_ROOM] players and has the status ["in_progress"], and
    the next [join_room] answers "Room is not accepting players", not
    "Room is full": the status test comes first. *)
Lemma full_room_join_is_not_room_full :
  active_rooms scenario_A !! "ABCD" = Some scenario_A_room ∧
  length (players scenario_A_room) = MAX_PLAYERS_PER_ROOM ∧
  status scenario_A_room = "in_progress" ∧
  (join_room "ABCD" "Carol" scenario_A).1 = Err.RoomNotAcceptingPlayers ∧
  (join_room "ABCD" "Carol" scenario_A).1 ≠ Err.RoomFull.
Proof.
  assert (Hjoin : (join_room "ABCD" "Carol" scenario_A).1 = Err.RoomNotAcceptingPlayers)
    by (vm_compute; reflexivity).
  split; [vm_compute; reflexivity|]. split; [reflexivity|]. split; [reflexivity|].
  split; [exact Hjoin|]. rewrite Hjoin. discriminate.
Qed.

(** C1, amended. A room that holds [max_players] players rejects every
    further [join_room], and the call changes nothing: the reply is "Room
    is not accepting players" whenever the status is not ["waiting"], and
    "Room is full" only under the status ["waiting"]. In every world
    reached from the empty registry by calls other than status updates
    such a room has the status ["in_progress"], so the reply there is
    "Room is not accepting players". *)
Theorem full_room_rejects_join (w : World) (room_code player_name : string)
    (room : Room) :
  active_rooms w !! room_code = Some room →
  max_players room ≤ length (players room) →
  join_room room_code player_name w =
    (if bool_decide (status room = "waiting") then Err.RoomFull
     else Err.RoomNotAcceptingPlayers, w) ∧
  (∀ cs clock uuids,
     Forall (λ c, is_update c = false) cs →
     w = run cs (fresh_world clock uuids) →
     status room = "in_progress" ∧
     join_room room_code player_name w = (Err.RoomNotAcceptingPlayers, w)).
Proof.
  intros Hroom Hfull. split.
  - case_bool_decide as Hstatus.
    + by apply (join_room_full _ _ _ room).
    + by apply (join_room_not_waiting _ _ _ room).
  - intros cs clock uuids Hcs ->.
    assert (status room = "in_progress") as Hstarted.
    { eapply run_keeps_full_rooms_started; eauto using fresh_world_full_rooms_started. }
    split; [done|]. apply (join_room_not_waiting _ _ _ room); [done|].
    by rewrite Hstarted.
Qed.

Lemma full_room_rejects_join_witness :
  active_rooms scenario_A !! "ABCD" = Some scenario_A_room ∧
  max_players scenario_A_room ≤ length (players scenario_A_room) ∧
  join_room "ABCD" "Carol" scenario_A = (Err.RoomNotAcceptingPlayers, scenario_A) ∧
  status scenario_A_room = "in_progress".
Proof.
  assert (active_rooms scenario_A !! "ABCD" = Some scenario_A_room) as Hroom
    by (vm_compute; reflexivity).
  assert (max_players scenario_A_room ≤ length (players scenario_A_room)) as Hfull
    by (simpl; lia).
  destruct (full_room_rejects_join scenario_A "ABCD" "Carol" scenario_A_room Hroom Hfull)
    as [Hreply Hreached].
  split; [exact Hroom|]. split; [exact Hfull|]. split; [exact Hreply|].
  refine (proj1 (Hreached [CreateRoom "ABCD" "Alice" ∅; JoinRoom "ABCD" "Bob"]
                          demo_clock demo_uuids _ eq_refl)).
  repeat constructor.
Defined.

(** ** Creating a room *)

(** C2. [create_room] answers "Server at maximum capacity" when the
    registry holds [MAX_ROOMS] rooms or more; below that, it answers "Room
    code already exists" when the code is registered, and the world, the
    registered room included, is what it was; otherwise it succeeds and
    inserts a room with the status ["waiting"], the creator as the only
    player, and the two timestamps read from the clock, one after the
    other, during the call; the registry is written out once, after the
    insertion. *)
Theorem create_room_outcomes (room_code player_name : string)
    (host_info : gmap string json) (w : World) :
  (MAX_ROOMS ≤ size (active_rooms w) →
     create_room room_code player_name host_info w = (Err.CapacityExceeded, w)) ∧
  (size (active_rooms w) < MAX_ROOMS →
     ∀ room, active_rooms w !! room_code = Some room →
       create_room room_code player_name host_info w = (Err.CodeConflict, w) ∧
       active_rooms (create_room room_code player_name host_info w).2 !! room_code
         = Some room) ∧
  (size (active_rooms w) < MAX_ROOMS →
     active_rooms w !! room_code = None →
     ∃ room,
       (create_room room_code player_name host_info w).1
         = Success (mkCreated room_code "Room created successfully") ∧
       active_rooms (create_room room_code player_name host_info w).2
         = <[room_code := room]> (active_rooms w) ∧
       status room = "waiting" ∧
       players room = [player_name] ∧
       created_at room = wall_clock w (clock_reads w) ∧
       last_activity room = wall_clock w (S (clock_reads w)) ∧
       max_players room = MAX_PLAYERS_PER_ROOM ∧
       host_name (host room) = player_name ∧
       rooms_file (create_room room_code player_name host_info w).2
         = rooms_file w ++ [<[room_code := room]> (active_rooms w)]).
Proof.
  split; [|split].
  - apply create_room_at_capacity.
  - intros Hlt room Hroom.
    rewrite create_room_conflict by (done || by rewrite Hroom). done.
  - intros Hlt Hnew. exists (created_room player_name host_info w).
    by rewrite create_room_fresh.
Qed.

Lemma crowded_rooms_size : size crowded_rooms = MAX_ROOMS.
Proof. vm_compute. reflexivity. Qed.

Lemma create_room_outcomes_witness :
  (MAX_ROOMS ≤ size (active_rooms crowded_world) ∧
   create_room "ABCD" "Alice" ∅ crowded_world = (Err.CapacityExceeded, crowded_world)) ∧
  (size (active_rooms scenario_A_created) < MAX_ROOMS ∧
   active_rooms scenario_A_created !! "ABCD" = Some waiting_room ∧
   create_room "ABCD" "Alice" ∅ scenario_A_created
     = (Err.CodeConflict, scenario_A_created)) ∧
  (size (active_rooms demo_world) < MAX_ROOMS ∧
   active_rooms demo_world !! "ABCD" = None ∧
   ∃ room,
     (create_room "ABCD" "Alice" ∅ demo_world).1
       = Success (mkCreated "ABCD" "Room created successfully") ∧
     active_rooms (create_room "ABCD" "Alice" ∅ demo_world).2
       = <["ABCD" := room]> (active_rooms demo_world) ∧
     status room = "waiting" ∧
     players room = ["Alice"]).
Proof.
  pose proof (create_room_outcomes "ABCD" "Alice" ∅ crowded_world) as (Hcap & _ & _).
  pose proof (create_room_outcomes "ABCD" "Alice" ∅ scenario_A_created) as (_ & Hdup & _).
  pose proof (create_room_outcomes "ABCD" "Alice" ∅ demo_world) as (_ & _ & Hnew).
  assert (MAX_ROOMS ≤ size (active_rooms crowded_world)) as Hfull
    by (apply Nat.leb_le; vm_compute; reflexivity).
  assert (size (active_rooms scenario_A_created) < MAX_ROOMS) as Hone
    by (apply Nat.ltb_lt; vm_compute; reflexivity).
  assert (active_rooms scenario_A_created !! "ABCD" = Some waiting_room) as Hroom
    by (vm_compute; reflexivity).
  assert (size (active_rooms demo_world) < MAX_ROOMS) as Hnone
    by (apply Nat.ltb_lt; vm_compute; reflexivity).
  assert (active_rooms demo_world !! "ABCD" = None) as Hfree
    by (vm_compute; reflexivity).
  split; [split; [exact Hfull|exact (Hcap Hfull)]|].
  split; [split; [exact Hone|split; [exact Hroom|exact (proj1 (Hdup Hone _ Hroom))]]|].
  split; [exact Hnone|]. split; [exact Hfree|].
  destruct (Hnew Hnone Hfree) as (room & Hreply & Hrooms & Hstatus & Hplayers & _).
  exists room. auto.
Defined.

(** C9. With [MAX_ROOMS] rooms registered, one of them under the
    requested code, [create_room] answers "Server at maximum capacity" and
    not "Room code already exists": the capacity test comes first. *)
Theorem capacity_precedes_conflict (room_code player_name : string)
    (host_info : gmap string json) (w : World) :
  MAX_ROOMS ≤ size (active_rooms w) →
  is_Some (active_rooms w !! room_code) →
  (create_room room_code player_name host_info w).1 = Err.CapacityExceeded ∧
  (create_room room_code player_name host_info w).1 ≠ Err.CodeConflict ∧
  (create_room room_code player_name host_info w).2 = w.
Proof.
  intros Hfull _. rewrite create_room_at_capacity by done. simpl.
  split; [done|]. split; [discriminate|done].
Qed.

Lemma capacity_precedes_conflict_witness :
  MAX_ROOMS ≤ size (active_rooms crowded_world) ∧
  is_Some (active_rooms crowded_world !! "512") ∧
  (create_room "512" "Alice" ∅ crowded_world).1 = Err.CapacityExceeded.
Proof.
  assert (MAX_ROOMS ≤ size (active_rooms crowded_world)) as Hfull
    by (apply Nat.leb_le; vm_compute; reflexivity).
  assert (is_Some (active_rooms crowded_world !! "512")) as Hin
    by (exists waiting_room; vm_compute; reflexivity).
  split; [exact Hfull|]. split; [exact Hin|].
  exact (proj1 (capacity_precedes_conflict "512" "Alice" ∅ crowded_world Hfull Hin)).
Defined.

(** C10. The room a successful [create_room] stores has the host port
    5555 when [host_info] has no ["port"] entry, and the value of that
    entry, unchanged, when it has one. *)
Theorem created_room_host_port (room_code player_name : string)
    (host_info : gmap string json) (w : World) (reply : Created) :
  (create_room room_code player_name host_info w).1 = Success reply →
  ∃ room,
    active_rooms (create_room room_code player_name host_info w).2 !! room_code
      = Some room ∧
    (host_info !! "port" = None → host_port (host room) = JInt 5555) ∧
    (∀ port, host_info !! "port" = Some port → host_port (host room) = port).
Proof.
  destruct (create_room_cases room_code w) as [Hcap|[[Hlt Hin]|[Hlt Hnew]]].
  - by rewrite create_room_at_capacity.
  - by rewrite create_room_conflict.
  - rewrite create_room_fresh by done. simpl. intros _.
    exists (created_room player_name host_info w).
    rewrite lookup_insert_eq. split; [done|]. unfold created_room, dict_get. simpl.
    split; [by intros ->|]. by intros port ->.
Qed.

Lemma created_room_host_port_witness :
  (∃ room,
     (create_room "ABCD" "Alice" ∅ demo_world).1
       = Success (mkCreated "ABCD" "Room created successfully") ∧
     active_rooms (create_room "ABCD" "Alice" ∅ demo_world).2 !! "ABCD" = Some room ∧
     host_port (host room) = JInt 5555) ∧
  (∃ room,
     (create_room "ABCD" "Alice" {["port" := JInt 7777]} demo_world).1
       = Success (mkCreated "ABCD" "Room created successfully") ∧
     active_rooms (create_room "ABCD" "Alice" {["port" := JInt 7777]} demo_world).2
       !! "ABCD" = Some room ∧
     host_port (host room) = JInt 7777).
Proof.
  split.
  - assert ((create_room "ABCD" "Alice" ∅ demo_world).1
            = Success (mkCreated "ABCD" "Room created successfully")) as Hok
      by (vm_compute; reflexivity).
    destruct (created_room_host_port "ABCD" "Alice" ∅ demo_world _ Hok)
      as (room & Hroom & Hdefault & _).
    exists room. split; [exact Hok|]. split; [exact Hroom|].
    apply Hdefault. vm_compute. reflexivity.
  - assert ((create_room "ABCD" "Alice" {["port" := JInt 7777]} demo_world).1
            = Success (mkCreated "ABCD" "Room created successfully")) as Hok
      by (vm_compute; reflexivity).
    destruct (created_room_host_port "ABCD" "Alice" {["port" := JInt 7777]} demo_world
                _ Hok) as (room & Hroom & _ & Hgiven).
    exists room. split; [exact Hok|]. split; [exact Hroom|].
    apply Hgiven. vm_compute. reflexivity.
Defined.

(** ** Joining a room *)

(** C3. A [join_room] on a room that is ["waiting"] and has spare
    capacity succeeds: it appends the name the renaming loop settled on,
    stamps [last_activity] with the clock, sets the status to
    ["in_progress"] exactly when the room now holds [max_players] players
    (and leaves it ["waiting"] otherwise), stores that room and writes the
    registry out; the reply carries the host's connection details, the
    new player list, the new status, the name used, and a flag that is set
    exactly when that name is not the requested one. *)
Theorem join_room_success (w : World) (room_code player_name : string) (room : Room) :
  active_rooms w !! room_code = Some room →
  status room = "waiting" →
  length (players room) < max_players room →
  ∃ (reply : Joined) (room' : Room),
    (join_room room_code player_name w).1 = Success reply ∧
    active_rooms (join_room room_code player_name w).2
      = <[room_code := room']> (active_rooms w) ∧
    rooms_file (join_room room_code player_name w).2
      = rooms_file w ++ [<[room_code := room']> (active_rooms w)] ∧
    joined_player_name reply
      = (rename_loop (players room) player_name player_name 1 w).1 ∧
    players room' = players room ++ [joined_player_name reply] ∧
    last_activity room' = wall_clock w (clock_reads w) ∧
    (status room' = "in_progress" ↔ length (players room') = max_players room') ∧
    (status room' = "waiting" ↔ length (players room') < max_players room') ∧
    host room' = host room ∧
    created_at room' = created_at room ∧
    max_players room' = max_players room ∧
    joined_host_ip reply = host_ip (host room) ∧
    joined_host_port reply = host_port (host room) ∧
    joined_public_ip reply = host_public_ip (host room) ∧
    joined_players reply = players room' ∧
    joined_status reply = status room' ∧
    (joined_name_changed reply = true ↔ joined_player_name reply ≠ player_name).
Proof.
  intros Hroom Hstatus Hspare.
  rewrite (join_room_accepted _ _ _ room) by done. simpl.
  set (final := (rename_loop (players room) player_name player_name 1 w).1).
  eexists _, (joined_room final (wall_clock w (clock_reads w)) room).
  split; [reflexivity|]. simpl.
  repeat (split; [done|]).
  rewrite length_app, Hstatus. simpl.
  split; [|split]; [| |repeat (split; [done|]); apply bool_decide_eq_true].
  - case_bool_decide; split; (done || lia).
  - case_bool_decide; split; (done || lia).
Qed.

Lemma join_room_success_witness :
  active_rooms scenario_A_created !! "ABCD" = Some waiting_room ∧
  status waiting_room = "waiting" ∧
  length (players waiting_room) < max_players waiting_room ∧
  ∃ (reply : Joined) (room' : Room),
    (join_room "ABCD" "Bob" scenario_A_created).1 = Success reply ∧
    active_rooms (join_room "ABCD" "Bob" scenario_A_created).2
      = <["ABCD" := room']> (active_rooms scenario_A_created) ∧
    joined_player_name reply = "Bob" ∧
    players room' = ["Alice"; "Bob"] ∧
    status room' = "in_progress".
Proof.
  assert (active_rooms scenario_A_created !! "ABCD" = Some waiting_room) as Hroom
    by (vm_compute; reflexivity).
  assert (length (players waiting_room) < max_players waiting_room) as Hspare
    by (simpl; lia).
  split; [exact Hroom|]. split; [reflexivity|]. split; [exact Hspare|].
  destruct (join_room_success scenario_A_created "ABCD" "Bob" waiting_room
              Hroom eq_refl Hspare)
    as (reply & room' & Hreply & Hrooms & _ & Hname & Hplayers & _ & Hstarted & _ &
        _ & _ & Hmax & _).
  assert (joined_player_name reply = "Bob") as Hbob
    by (rewrite Hname; vm_compute; reflexivity).
  exists reply, room'. split; [exact Hreply|]. split; [exact Hrooms|].
  split; [exact Hbob|].
  assert (players room' = ["Alice"; "Bob"]) as Hboth
    by (rewrite Hplayers, Hbob; reflexivity).
  split; [exact Hboth|].
  apply Hstarted. rewrite Hboth, Hmax. reflexivity.
Defined.

(** ** Resolving a name *)

(** C4. Against a roster of fewer than 100 names the renaming loop ends,
    without drawing a random token, on a name that is not in the roster:
    the requested name itself when it is free, and otherwise the first of
    [name_1], [name_2], ... that is free, every earlier one being taken.
    A [join_room] that goes through uses that name, and sets its
    name-changed flag exactly when the name is one of the suffixed ones. *)
Theorem rename_loop_resolves (roster : list string) (name : string) (w : World) :
  length roster < 100 →
  ∃ k, k < 100 ∧
    rename_loop roster name name 1 w = (candidate name k, w) ∧
    (candidate name k ∉ roster) ∧
    (∀ i, i < k → candidate name i ∈ roster) ∧
    (name ∉ roster → k = 0 ∧ candidate name k = name) ∧
    (name ∈ roster →
       0 < k ∧ candidate name k = name +:+ "_" +:+ pretty k ∧ candidate name k ≠ name) ∧
    (∀ room_code room,
       active_rooms w !! room_code = Some room →
       players room = roster →
       status room = "waiting" →
       length roster < max_players room →
       ∃ reply,
         (join_room room_code name w).1 = Success reply ∧
         joined_player_name reply = candidate name k ∧
         joined_name_changed reply = bool_decide (0 < k)).
Proof.
  intros Hshort.
  destruct (first_free_candidate roster name 100) as [Hall|(k & Hk & Hfree & Hmin)].
  { apply candidates_fill_roster in Hall. lia. }
  assert (rename_loop roster name name 1 w = (candidate name k, w)) as Hloop.
  { apply (rename_loop_walk roster name w k 0); [lia|done|].
    intros i Hi. apply Hmin. lia. }
  exists k. split; [done|]. split; [done|]. split; [done|]. split; [done|].
  split; [|split].
  - intros Hname. destruct k as [|k]; [done|]. destruct Hname. apply (Hmin 0). lia.
  - intros Hname. destruct k as [|k]; [done|].
    split; [lia|]. split; [done|]. apply candidate_succ_ne.
  - intros room_code room Hroom <- Hstatus Hspare.
    rewrite (join_room_accepted _ _ _ room) by done. simpl.
    rewrite Hloop. simpl. eexists. split; [reflexivity|]. simpl. split; [done|].
    pose proof (candidate_succ_ne name) as Hne.
    destruct k as [|k]; repeat case_bool_decide; try done; try lia.
    by destruct (Hne k).
Qed.

Lemma rename_loop_resolves_witness :
  length ["Alice"] < 100 ∧
  rename_loop ["Alice"] "Alice" "Alice" 1 scenario_C = ("Alice_1", scenario_C) ∧
  ("Alice_1" ∉ ["Alice"]) ∧
  ∃ reply,
    (join_room "XYZ" "Alice" scenario_C).1 = Success reply ∧
    joined_player_name reply = "Alice_1" ∧
    joined_name_changed reply = true.
Proof.
  assert (length ["Alice"] < 100) as Hshort by (simpl; lia).
  assert ("Alice" ∈ ["Alice"]) as Htaken by left.
  assert ("Alice_1" ∈ ["Alice"] → False) as Hfree.
  { intros Hin. apply list_elem_of_singleton in Hin. discriminate Hin. }
  destruct (rename_loop_resolves ["Alice"] "Alice" scenario_C Hshort)
    as (k & Hk & Hloop & Hout & Hmin & _ & Hsuffixed & Hjoin).
  destruct (Hsuffixed Htaken) as (Hpos & _ & _).
  assert (k = 1) as ->.
  { destruct k as [|[|k]]; [lia|reflexivity|].
    destruct Hfree. apply (Hmin 1). lia. }
  split; [exact Hshort|]. split; [exact Hloop|]. split; [exact Hfree|].
  destruct (Hjoin "XYZ" waiting_room) as (reply & Hreply & Hname & Hflag).
  - vm_compute. reflexivity.
  - reflexivity.
  - reflexivity.
  - simpl. lia.
  - exists reply. split; [exact Hreply|]. split; [exact Hname|exact Hflag].
Defined.

(** Scenario C, run: Alice joins the room she is waiting in. *)
Example scenario_C_join :
  (join_room "XYZ" "Alice" scenario_C).1 =
    Success (mkJoined JNull (JInt 5555) JNull ["Alice"; "Alice_1"] "in_progress"
                      "Alice_1" true).
Proof. vm_compute. reflexivity. Qed.

(** With a hundred names in the way the loop gives up and draws a token,
    although [name_100] is free: the last suffix it tries is 99. *)
Example rename_loop_gives_up :
  (rename_loop (candidate "Alice" <$> seq 0 100) "Alice" "Alice" 1 demo_world).1
    = "Alice_c0de".
Proof. vm_compute. reflexivity. Qed.

(** ** Reaping *)

Lemma cleanup_old_rooms_sizes (w : World) :
  (cleanup_old_rooms w).1 + size (active_rooms (cleanup_old_rooms w).2)
    = size (active_rooms w).
Proof.
  set (now := wall_clock w (clock_reads w)).
  set (stale := λ item : string * Room, timed_out now item.2 = true).
  assert (active_rooms (cleanup_old_rooms w).2
          = filter (λ item, ¬ stale item) (active_rooms w)) as ->.
  { apply map_eq. intros code. rewrite cleanup_old_rooms_lookup. fold now.
    destruct (active_rooms w !! code) as [room|] eqn:Hroom.
    - destruct (timed_out now room) eqn:Hstale.
      + symmetry. apply map_lookup_filter_None. right. intros room' Hroom' Hkeep.
        apply Hkeep. unfold stale. simpl. congruence.
      + symmetry. apply map_lookup_filter_Some. split; [done|].
        unfold stale. simpl. congruence.
    - symmetry. apply map_lookup_filter_None. by left. }
  rewrite cleanup_old_rooms_unfold. simpl. rewrite length_to_remove. fold now. fold stale.
  rewrite <- (map_filter_union_complement stale (active_rooms w)) at 3.
  rewrite map_size_disj_union; [done|]. apply map_disjoint_filter_complement.
Qed.

(** C5. [cleanup_old_rooms] reads the clock once and removes exactly the
    rooms whose [last_activity] lies more than [ROOM_TIMEOUT] seconds
    before that reading: such a room is gone afterwards, for
    [get_room_info] and [list_rooms] too; a room within the timeout is
    still there, unchanged; no room appears. The number returned is the
    number of rooms removed. *)
Theorem cleanup_old_rooms_reaps (w : World) :
  let now := wall_clock w (clock_reads w) in
  let after := (cleanup_old_rooms w).2 in
  (∀ code room,
     active_rooms w !! code = Some room →
     (ROOM_TIMEOUT * 1000000 < now - last_activity room)%Z →
     active_rooms after !! code = None ∧
     (get_room_info code after).1 = Err.RoomNotFound ∧
     listing_rooms (list_rooms after).1 !! code = None) ∧
  (∀ code room,
     active_rooms w !! code = Some room →
     (now - last_activity room ≤ ROOM_TIMEOUT * 1000000)%Z →
     active_rooms after !! code = Some room ∧
     (get_room_info code after).1 = Success room ∧
     listing_rooms (list_rooms after).1 !! code = Some room) ∧
  (∀ code, active_rooms w !! code = None → active_rooms after !! code = None) ∧
  (cleanup_old_rooms w).1
    = size (filter (λ item, timed_out now item.2 = true) (active_rooms w)) ∧
  (cleanup_old_rooms w).1 + size (active_rooms after) = size (active_rooms w) ∧
  listing_total (list_rooms after).1 = size (active_rooms after).
Proof.
  intros now after.
  assert (∀ code, (get_room_info code after).1
                  = match active_rooms after !! code with
                    | Some room => Success room
                    | None => Err.RoomNotFound
                    end) as Hget.
  { intros code. unfold get_room_info. unfold_m.
    by destruct (active_rooms after !! code). }
  split; [|split; [|split; [|split; [|split]]]].
  - intros code room Hroom Hold.
    assert (active_rooms after !! code = None) as Hgone.
    { subst after. rewrite cleanup_old_rooms_lookup, Hroom. fold now.
      unfold timed_out. by rewrite bool_decide_eq_true_2. }
    rewrite Hget, Hgone. split; [done|]. split; [done|exact Hgone].
  - intros code room Hroom Hrecent.
    assert (active_rooms after !! code = Some room) as Hkept.
    { subst after. rewrite cleanup_old_rooms_lookup, Hroom. fold now.
      unfold timed_out. by rewrite bool_decide_eq_false_2 by lia. }
    rewrite Hget, Hkept. split; [done|]. split; [done|exact Hkept].
  - intros code Hnone. subst after. by rewrite cleanup_old_rooms_lookup, Hnone.
  - rewrite cleanup_old_rooms_unfold. simpl. apply length_to_remove.
  - apply cleanup_old_rooms_sizes.
  - done.
Qed.

Lemma cleanup_old_rooms_reaps_witness :
  (active_rooms scenario_E !! "ABCD" = Some waiting_room ∧
   (wall_clock scenario_E (clock_reads scenario_E) - last_activity waiting_room
    = 601 * 1000000)%Z ∧
   (cleanup_old_rooms scenario_E).1 = 1 ∧
   active_rooms (cleanup_old_rooms scenario_E).2 !! "ABCD" = None ∧
   (get_room_info "ABCD" (cleanup_old_rooms scenario_E).2).1 = Err.RoomNotFound) ∧
  (active_rooms scenario_E_boundary !! "ABCD" = Some waiting_room ∧
   (wall_clock scenario_E_boundary (clock_reads scenario_E_boundary)
    - last_activity waiting_room = 600 * 1000000)%Z ∧
   (cleanup_old_rooms scenario_E_boundary).1 = 0 ∧
   active_rooms (cleanup_old_rooms scenario_E_boundary).2 !! "ABCD" = Some waiting_room).
Proof.
  split.
  - destruct (cleanup_old_rooms_reaps scenario_E) as (Hold & _ & _ & Hcount & _).
    assert (active_rooms scenario_E !! "ABCD" = Some waiting_room) as Hroom
      by (vm_compute; reflexivity).
    destruct (Hold "ABCD" waiting_room Hroom) as (Hgone & Hget & _).
    { vm_compute. reflexivity. }
    split; [exact Hroom|]. split; [vm_compute; reflexivity|].
    split; [rewrite Hcount; vm_compute; reflexivity|].
    split; [exact Hgone|exact Hget].
  - destruct (cleanup_old_rooms_reaps scenario_E_boundary) as (_ & Hrecent & _ & Hcount & _).
    assert (active_rooms scenario_E_boundary !! "ABCD" = Some waiting_room) as Hroom
      by (vm_compute; reflexivity).
    destruct (Hrecent "ABCD" waiting_room Hroom) as (Hkept & _).
    { vm_compute. discriminate. }
    split; [exact Hroom|]. split; [vm_compute; reflexivity|].
    split; [rewrite Hcount; vm_compute; reflexivity|exact Hkept].
Defined.

(** ** The status of a room *)

Lemma status_le_refl (s : string) : status_le s s.
Proof. by left. Qed.

Lemma status_le_trans (s1 s2 s3 : string) :
  status_le s1 s2 → status_le s2 s3 → status_le s1 s3.
Proof.
  intros [->|(a & b & Ha & Hb & Hab)] [<-|(b' & c & Hb' & Hc & Hbc)].
  - by left.
  - right. eauto.
  - right. eauto.
  - right. exists a, c. rewrite Hb in Hb'. injection Hb' as <-.
    split; [done|]. split; [done|lia].
Qed.

(** One call other than a status update moves no status backwards. *)
Lemma call_status_forward (c : Call) (w : World) (code : string) (room room' : Room) :
  is_update c = false →
  active_rooms w !! code = Some room →
  active_rooms (call c w).2 !! code = Some room' →
  status_le (status room) (status room').
Proof.
  intros Hc Hroom Hroom'.
  destruct (call_lookup c w code room' Hc Hroom')
    as [Hsame|[(Hnone & _)|(room0 & final & now & Hroom0 & Hwaiting & _ & ->)]].
  - rewrite Hroom in Hsame. injection Hsame as ->. apply status_le_refl.
  - by rewrite Hroom in Hnone.
  - rewrite Hroom in Hroom0. injection Hroom0 as <-.
    unfold joined_room. simpl. case_bool_decide; [|apply status_le_refl].
    rewrite Hwaiting. right. exists 0, 1. auto.
Qed.

(** C6, as stated, fails: from scenario A, where ["ABCD"] is
    ["in_progress"], a status update puts the room back to ["waiting"]. *)
Lemma update_room_status_reverts :
  status <$> active_rooms scenario_A !! "ABCD" = Some "in_progress" ∧
  (update_room_status "ABCD" "waiting" scenario_A).1 = Success tt ∧
  status <$> active_rooms (run [UpdateRoomStatus "ABCD" "waiting"] scenario_A) !! "ABCD"
    = Some "waiting" ∧
  ¬ status_le "in_progress" "waiting".
Proof.
  split; [vm_compute; reflexivity|]. split; [vm_compute; reflexivity|].
  split; [vm_compute; reflexivity|].
  intros [Heq|(a & b & Ha & Hb & Hab)]; [discriminate|].
  vm_compute in Ha, Hb. injection Ha as <-. injection Hb as <-. lia.
Qed.

(** C6, amended. Along any sequence of create, join, close and reap
    calls, a room that stays registered throughout never has its status
    moved backwards in the order waiting, in_progress, completed. Status
    updates are left out: [update_room_status] installs whatever it is
    given. *)
Theorem status_forward_without_updates (cs : list Call) (w : World) (code : string)
    (room room' : Room) :
  Forall (λ c, is_update c = false) cs →
  live_throughout code cs w →
  active_rooms w !! code = Some room →
  active_rooms (run cs w) !! code = Some room' →
  status_le (status room) (status room').
Proof.
  intros Hcs. revert w room.
  induction Hcs as [|c cs Hc _ IH]; intros w room Hlive Hroom Hroom'; simpl in *.
  - rewrite Hroom in Hroom'. injection Hroom' as ->. apply status_le_refl.
  - destruct Hlive as [_ Hlive].
    assert (is_Some (active_rooms (call c w).2 !! code)) as [room1 Hroom1]
      by (by destruct cs; destruct Hlive).
    eapply status_le_trans; [by eapply call_status_forward|by eapply IH].
Qed.

Lemma status_forward_without_updates_witness :
  Forall (λ c, is_update c = false) [JoinRoom "ABCD" "Bob"; ReapExpired] ∧
  live_throughout "ABCD" [JoinRoom "ABCD" "Bob"; ReapExpired] scenario_A_created ∧
  active_rooms scenario_A_created !! "ABCD" = Some waiting_room ∧
  active_rooms (run [JoinRoom "ABCD" "Bob"; ReapExpired] scenario_A_created) !! "ABCD"
    = Some scenario_A_room ∧
  status_le "waiting" "in_progress".
Proof.
  assert (Forall (λ c, is_update c = false) [JoinRoom "ABCD" "Bob"; ReapExpired])
    as Hcs by (repeat constructor).
  assert (live_throughout "ABCD" [JoinRoom "ABCD" "Bob"; ReapExpired] scenario_A_created)
    as Hlive.
  { split; [exists waiting_room; vm_compute; reflexivity|].
    split; [exists scenario_A_room; vm_compute; reflexivity|].
    split; [exists scenario_A_room; vm_compute; reflexivity|exact I]. }
  assert (active_rooms scenario_A_created !! "ABCD" = Some waiting_room) as Hroom
    by (vm_compute; reflexivity).
  assert (active_rooms (run [JoinRoom "ABCD" "Bob"; ReapExpired] scenario_A_created)
            !! "ABCD" = Some scenario_A_room) as Hroom'
    by (vm_compute; reflexivity).
  split; [exact Hcs|]. split; [exact Hlive|]. split; [exact Hroom|].
  split; [exact Hroom'|].
  exact (status_forward_without_updates _ _ _ _ _ Hcs Hlive Hroom Hroom').
Defined.

(** C7, where the code departs from it. The statuses the source lists
    are waiting, in_progress and completed; [update_room_status] installs
    the string it is handed without looking at it. From scenario A, the
    update to "banana" succeeds and leaves the room with that status. *)
Lemma update_room_status_installs_any_string :
  (update_room_status "ABCD" "banana" scenario_A).1 = Success tt ∧
  status <$> active_rooms (update_room_status "ABCD" "banana" scenario_A).2 !! "ABCD"
    = Some "banana" ∧
  ¬ recognized_status "banana".
Proof.
  split; [vm_compute; reflexivity|]. split; [vm_compute; reflexivity|].
  intros [rank Hrank]. vm_compute in Hrank. discriminate.
Qed.

(** Short of that, the listed statuses are all there is: as long as every
    status update carries one of them, every room keeps one of them. *)
Lemma call_keeps_statuses_recognized (c : Call) (w : World) :
  carries_listed_status c → statuses_recognized w → statuses_recognized (call c w).2.
Proof.
  intros Hc Hinv code room' Hroom'.
  destruct (is_update c) eqn:Hupdate.
  - destruct c as [| |rc st| |]; try done. simpl in Hc.
    rewrite call_unfold in Hroom'. simpl in Hroom'.
    destruct (active_rooms w !! rc) as [room|] eqn:Hroom.
    + rewrite (update_room_status_found _ _ _ room) in Hroom' by done.
      simpl in Hroom'. destruct (decide (rc = code)) as [->|Hne].
      * rewrite lookup_insert_eq in Hroom'. by injection Hroom' as <-.
      * rewrite lookup_insert_ne in Hroom' by done. by eapply Hinv.
    + rewrite update_room_status_not_found in Hroom' by done. by eapply Hinv.
  - destruct (call_lookup c w code room' Hupdate Hroom')
      as [Hsame|[(_ & name & info & ->)|(room & final & now & Hroom & _ & _ & ->)]].
    + by eapply Hinv.
    + by exists 0.
    + unfold joined_room. simpl. case_bool_decide; [by exists 1|by eapply Hinv].
Qed.

Lemma run_keeps_statuses_recognized (cs : list Call) (w : World) :
  Forall carries_listed_status cs →
  statuses_recognized w → statuses_recognized (run cs w).
Proof.
  intros Hcs. revert w. induction Hcs as [|c cs Hc _ IH]; intros w Hinv; [done|].
  simpl. by apply IH, call_keeps_statuses_recognized.
Qed.

(** ** Persistence *)

(** C8. A call that changes the registry (a successful create, join,
    status update or close, or a clean-up that removes a room) writes the
    registry to the file exactly once, and what it writes is the registry
    as the call leaves it; a call that fails, or a clean-up that finds
    nothing to remove, writes nothing and leaves the registry as it
    was. *)
Theorem every_mutation_saved_once (c : Call) (w : World) :
  let mutated := (call c w).1 in
  let w' := (call c w).2 in
  (mutated = true ∧ rooms_file w' = rooms_file w ++ [active_rooms w']) ∨
  (mutated = false ∧ rooms_file w' = rooms_file w ∧ active_rooms w' = active_rooms w).
Proof.
  rewrite call_unfold. destruct c as [rc name info|rc name|rc st|rc|]; simpl.
  - destruct (create_room_cases rc w) as [Hcap|[[Hlt Hin]|[Hlt Hnew]]].
    + rewrite create_room_at_capacity by done. by right.
    + rewrite create_room_conflict by done. by right.
    + rewrite create_room_fresh by done. by left.
  - destruct (join_room_cases rc w)
      as [Hnone|(room & Hroom & [Hst|[[Hst Hfull]|[Hst Hspare]]])].
    + rewrite join_room_not_found by done. by right.
    + rewrite (join_room_not_waiting _ _ _ room) by done. by right.
    + rewrite (join_room_full _ _ _ room) by done. by right.
    + rewrite (join_room_accepted _ _ _ room) by done. by left.
  - destruct (active_rooms w !! rc) as [room|] eqn:Hroom.
    + rewrite (update_room_status_found _ _ _ room) by done. by left.
    + rewrite update_room_status_not_found by done. by right.
  - destruct (active_rooms w !! rc) as [room|] eqn:Hroom.
    + rewrite close_room_found by (by rewrite Hroom). by left.
    + rewrite close_room_not_found by done. by right.
  - rewrite cleanup_old_rooms_unfold. simpl.
    destruct (filter _ (map_to_list (active_rooms w))) as [|item items]; simpl.
    + right. done.
    + by left.
Qed.

(** A successful create, join or close, and a clean-up that removes a
    room, do change the registry. *)
Lemma structural_calls_change_registry (c : Call) (w : World) :
  is_update c = false → (call c w).1 = true →
  active_rooms (call c w).2 ≠ active_rooms w.
Proof.
  intros Hc. rewrite call_unfold.
  destruct c as [rc name info|rc name|rc st|rc|]; [| |done| |]; simpl.
  - destruct (create_room_cases rc w) as [Hcap|[[Hlt Hin]|[Hlt Hnew]]].
    + by rewrite create_room_at_capacity.
    + by rewrite create_room_conflict.
    + rewrite create_room_fresh by done. simpl. intros _ Heq.
      apply (f_equal (lookup rc)) in Heq. by rewrite lookup_insert_eq, Hnew in Heq.
  - destruct (join_room_cases rc w)
      as [Hnone|(room & Hroom & [Hst|[[Hst Hfull]|[Hst Hspare]]])].
    + by rewrite join_room_not_found.
    + by rewrite (join_room_not_waiting _ _ _ room).
    + by rewrite (join_room_full _ _ _ room).
    + rewrite (join_room_accepted _ _ _ room) by done. simpl. intros _ Heq.
      apply (f_equal (lookup rc)) in Heq. rewrite lookup_insert_eq, Hroom in Heq.
      injection Heq as Heq. apply (f_equal (λ r, length (players r))) in Heq.
      simpl in Heq. rewrite length_app in Heq. simpl in Heq. lia.
  - destruct (active_rooms w !! rc) as [room|] eqn:Hroom.
    + rewrite close_room_found by (by rewrite Hroom). simpl. intros _ Heq.
      apply (f_equal (lookup rc)) in Heq. by rewrite lookup_delete_eq, Hroom in Heq.
    + by rewrite close_room_not_found.
  - intros Hcount%bool_decide_eq_true Heq.
    pose proof (cleanup_old_rooms_sizes w) as Hsizes. rewrite Heq in Hsizes. lia.
Qed.


(** * Further properties of the room manager *)

(** ** Closing a room *)

Lemma size_delete_registered (rooms : gmap string Room) (code : string) :
  is_Some (rooms !! code) → S (size (delete code rooms)) = size rooms.
Proof.
  intros Hroom. rewrite map_size_delete_Some by done.
  pose proof (map_size_ne_0_lookup_2 rooms code Hroom). lia.
Qed.

(** X1. Once [close_room] has removed a room, its code is unknown to
    every operation: [get_room_info], [join_room], [update_room_status]
    and a second [close_room] all answer "Room not found", the last three
    without touching the world. Every other room is still registered,
    unchanged, and the registry is one room smaller. *)
Theorem close_room_forgets (w : World) (room_code : string) :
  is_Some (active_rooms w !! room_code) →
  let w' := (close_room room_code w).2 in
  (close_room room_code w).1 = Success tt ∧
  active_rooms w' !! room_code = None ∧
  (∀ other, other ≠ room_code → active_rooms w' !! other = active_rooms w !! other) ∧
  S (size (active_rooms w')) = size (active_rooms w) ∧
  (get_room_info room_code w').1 = Err.RoomNotFound ∧
  (∀ name, join_room room_code name w' = (Err.RoomNotFound, w')) ∧
  (∀ new_status, update_room_status room_code new_status w' = (Err.RoomNotFound, w')) ∧
  close_room room_code w' = (Err.RoomNotFound, w').
Proof.
  intros Hroom. cbv zeta. rewrite close_room_found by done. simpl.
  set (w' := mkWorld _ _ _ _ _ _).
  assert (active_rooms w' !! room_code = None) as Hgone by apply lookup_delete_eq.
  split; [done|]. split; [done|].
  split; [intros other Hne; by apply lookup_delete_ne|].
  split.
  { by apply size_delete_registered. }
  split; [unfold get_room_info; unfold_m; by rewrite lookup_delete_eq|].
  split; [intros name; by apply join_room_not_found|].
  split; [intros st; by apply update_room_status_not_found|].
  by apply close_room_not_found.
Qed.

Lemma close_room_forgets_witness :
  is_Some (active_rooms scenario_A !! "ABCD") ∧
  (close_room "ABCD" scenario_A).1 = Success tt ∧
  (get_room_info "ABCD" (close_room "ABCD" scenario_A).2).1 = Err.RoomNotFound ∧
  (join_room "ABCD" "Carol" (close_room "ABCD" scenario_A).2).1 = Err.RoomNotFound.
Proof.
  assert (is_Some (active_rooms scenario_A !! "ABCD")) as Hroom
    by (exists scenario_A_room; vm_compute; reflexivity).
  destruct (close_room_forgets scenario_A "ABCD" Hroom)
    as (Hreply & _ & _ & _ & Hget & Hjoin & _).
  split; [exact Hroom|]. split; [exact Hreply|]. split; [exact Hget|].
  rewrite (Hjoin "Carol"). reflexivity.
Defined.

(** X2. Closing a room makes room for a new one, also in a registry that
    was at capacity: after a successful [close_room], a [create_room]
    under the freed code, or under any code that was not registered,
    succeeds. *)
Theorem close_room_frees_capacity (w : World) (closed room_code player_name : string)
    (host_info : gmap string json) :
  size (active_rooms w) ≤ MAX_ROOMS →
  is_Some (active_rooms w !! closed) →
  room_code = closed ∨ active_rooms w !! room_code = None →
  let w' := (close_room closed w).2 in
  (create_room room_code player_name host_info w').1
    = Success (mkCreated room_code "Room created successfully") ∧
  active_rooms (create_room room_code player_name host_info w').2 !! room_code
    = Some (created_room player_name host_info w').
Proof.
  intros Hsize [room Hroom] Hcode. cbv zeta.
  rewrite close_room_found by (by rewrite Hroom). simpl.
  set (w' := mkWorld _ _ _ _ _ _).
  assert (size (active_rooms w') < MAX_ROOMS) as Hlt.
  { pose proof (size_delete_registered (active_rooms w) closed) as Hdel.
    simpl. rewrite Hroom in Hdel. specialize (Hdel (mk_is_Some _ _ eq_refl)). lia. }
  assert (active_rooms w' !! room_code = None) as Hfree.
  { simpl. destruct Hcode as [->|Hnone]; [apply lookup_delete_eq|].
    apply lookup_delete_None. by right. }
  rewrite create_room_fresh by done. simpl. by rewrite lookup_insert_eq.
Qed.

Lemma close_room_frees_capacity_witness :
  size (active_rooms crowded_world) ≤ MAX_ROOMS ∧
  is_Some (active_rooms crowded_world !! "512") ∧
  (create_room "512" "Alice" ∅ crowded_world).1 = Err.CapacityExceeded ∧
  (create_room "512" "Alice" ∅ (close_room "512" crowded_world).2).1
    = Success (mkCreated "512" "Room created successfully").
Proof.
  assert (size (active_rooms crowded_world) ≤ MAX_ROOMS) as Hsize
    by (apply Nat.leb_le; vm_compute; reflexivity).
  assert (is_Some (active_rooms crowded_world !! "512")) as Hroom
    by (exists waiting_room; vm_compute; reflexivity).
  split; [exact Hsize|]. split; [exact Hroom|].
  split; [vm_compute; reflexivity|].
  exact (proj1 (close_room_frees_capacity crowded_world "512" "512" "Alice" ∅
                  Hsize Hroom (or_introl eq_refl))).
Defined.

(** ** Updating a status *)

(** X3. A successful [update_room_status] touches one room and, in it,
    two fields: the status becomes the given string and [last_activity]
    the clock's reading; host, players, [created_at] and [max_players]
    stay, as do all other rooms and the number of rooms. *)
Theorem update_room_status_frame (w : World) (room_code new_status : string)
    (room : Room) :
  active_rooms w !! room_code = Some room →
  let w' := (update_room_status room_code new_status w).2 in
  ∃ room',
    active_rooms w' !! room_code = Some room' ∧
    status room' = new_status ∧
    last_activity room' = wall_clock w (clock_reads w) ∧
    host room' = host room ∧
    players room' = players room ∧
    created_at room' = created_at room ∧
    max_players room' = max_players room ∧
    (∀ other, other ≠ room_code → active_rooms w' !! other = active_rooms w !! other) ∧
    size (active_rooms w') = size (active_rooms w).
Proof.
  intros Hroom. cbv zeta. rewrite (update_room_status_found _ _ _ room) by done. simpl.
  eexists. split; [apply lookup_insert_eq|]. simpl.
  repeat (split; [done|]). split.
  - intros other Hne. by apply lookup_insert_ne.
  - by apply map_size_insert_Some.
Qed.

Lemma update_room_status_frame_witness :
  active_rooms scenario_A !! "ABCD" = Some scenario_A_room ∧
  ∃ room',
    active_rooms (update_room_status "ABCD" "completed" scenario_A).2 !! "ABCD"
      = Some room' ∧
    status room' = "completed" ∧
    players room' = ["Alice"; "Bob"].
Proof.
  assert (active_rooms scenario_A !! "ABCD" = Some scenario_A_room) as Hroom
    by (vm_compute; reflexivity).
  destruct (update_room_status_frame scenario_A "ABCD" "completed" scenario_A_room Hroom)
    as (room' & Hroom' & Hstatus & _ & _ & Hplayers & _).
  split; [exact Hroom|]. exists room'.
  split; [exact Hroom'|]. split; [exact Hstatus|]. exact Hplayers.
Defined.

(** X4. The status alone opens and shuts a room to joins. After
    [update_room_status] has installed a status other than ["waiting"],
    every [join_room] on the room is refused with "Room is not accepting
    players"; after it has installed ["waiting"], a [join_room] is refused
    with "Room is full" if the room is full and accepted otherwise,
    whatever the status was before. *)
Theorem update_room_status_gates_joins (w : World) (room_code new_status name : string)
    (room : Room) :
  active_rooms w !! room_code = Some room →
  let w' := (update_room_status room_code new_status w).2 in
  (new_status ≠ "waiting" →
     join_room room_code name w' = (Err.RoomNotAcceptingPlayers, w')) ∧
  (new_status = "waiting" → max_players room ≤ length (players room) →
     join_room room_code name w' = (Err.RoomFull, w')) ∧
  (new_status = "waiting" → length (players room) < max_players room →
     succeeded (join_room room_code name w').1 = true).
Proof.
  intros Hroom. cbv zeta. rewrite (update_room_status_found _ _ _ room) by done. simpl.
  set (room' := set_last_activity _ _). set (w' := mkWorld _ _ _ _ _ _).
  assert (active_rooms w' !! room_code = Some room') as Hroom' by apply lookup_insert_eq.
  split; [|split].
  - intros Hst. by apply (join_room_not_waiting _ _ _ room').
  - intros Hst Hfull. by apply (join_room_full _ _ _ room').
  - intros Hst Hspare. by rewrite (join_room_accepted _ _ _ room').
Qed.

Lemma update_room_status_gates_joins_witness :
  active_rooms scenario_A !! "ABCD" = Some scenario_A_room ∧
  (join_room "ABCD" "Carol" (update_room_status "ABCD" "completed" scenario_A).2).1
    = Err.RoomNotAcceptingPlayers ∧
  (join_room "ABCD" "Carol" (update_room_status "ABCD" "waiting" scenario_A).2).1
    = Err.RoomFull.
Proof.
  assert (active_rooms scenario_A !! "ABCD" = Some scenario_A_room) as Hroom
    by (vm_compute; reflexivity).
  destruct (update_room_status_gates_joins scenario_A "ABCD" "completed" "Carol"
              scenario_A_room Hroom) as (Hshut & _ & _).
  destruct (update_room_status_gates_joins scenario_A "ABCD" "waiting" "Carol"
              scenario_A_room Hroom) as (_ & Hfull & _).
  split; [exact Hroom|]. split.
  - rewrite Hshut; [reflexivity|discriminate].
  - rewrite Hfull; [reflexivity|reflexivity|simpl; lia].
Defined.

(** ** What a call can do to a room *)

(** The general form of [call_lookup]: status updates included, and the
    joined name tied to the renaming loop. *)
Lemma call_lookup_any (c : Call) (w : World) (code : string) (room' : Room) :
  active_rooms (call c w).2 !! code = Some room' →
  active_rooms w !! code = Some room' ∨
  (active_rooms w !! code = None ∧ size (active_rooms w) < MAX_ROOMS ∧
   ∃ name info, c = CreateRoom code name info ∧ room' = created_room name info w) ∨
  (∃ room name,
     c = JoinRoom code name ∧
     active_rooms w !! code = Some room ∧ status room = "waiting" ∧
     length (players room) < max_players room ∧
     room' = joined_room (rename_loop (players room) name name 1 w).1
                         (wall_clock w (clock_reads w)) room) ∨
  (∃ room new_status,
     c = UpdateRoomStatus code new_status ∧
     active_rooms w !! code = Some room ∧
     room' = set_last_activity (wall_clock w (clock_reads w))
                               (set_status new_status room)).
Proof.
  rewrite call_unfold.
  destruct c as [rc name info|rc name|rc st|rc|]; simpl.
  - destruct (create_room_cases rc w) as [Hcap|[[Hlt Hin]|[Hlt Hnew]]].
    + rewrite create_room_at_capacity by done. auto.
    + rewrite create_room_conflict by done. auto.
    + rewrite create_room_fresh by done. simpl.
      destruct (decide (rc = code)) as [->|Hne].
      * rewrite lookup_insert_eq. intros [= <-]. right. left. eauto 10.
      * rewrite lookup_insert_ne by done. auto.
  - destruct (join_room_cases rc w)
      as [Hnone|(room & Hroom & [Hst|[[Hst Hfull]|[Hst Hspare]]])].
    + rewrite join_room_not_found by done. auto.
    + rewrite (join_room_not_waiting _ _ _ room) by done. auto.
    + rewrite (join_room_full _ _ _ room) by done. auto.
    + rewrite (join_room_accepted _ _ _ room) by done. simpl.
      destruct (decide (rc = code)) as [->|Hne].
      * rewrite lookup_insert_eq. intros [= <-]. right. right. left. eauto 10.
      * rewrite lookup_insert_ne by done. auto.
  - destruct (active_rooms w !! rc) as [room|] eqn:Hroom.
    + rewrite (update_room_status_found _ _ _ room) by done. simpl.
      destruct (decide (rc = code)) as [->|Hne].
      * rewrite lookup_insert_eq. intros [= <-]. right. right. right. eauto 10.
      * rewrite lookup_insert_ne by done. auto.
    + rewrite update_room_status_not_found by done. auto.
  - destruct (active_rooms w !! rc) as [room|] eqn:Hroom.
    + rewrite close_room_found by (by rewrite Hroom). simpl.
      intros [_ ?]%lookup_delete_Some. auto.
    + rewrite close_room_not_found by done. auto.
  - rewrite cleanup_old_rooms_lookup.
    destruct (active_rooms w !! code) as [room|]; [|done].
    destruct (timed_out _ room); [done|auto].
Qed.

(** Against a short roster the loop ends on a free name. *)
Lemma rename_loop_short_roster (roster : list string) (name : string) (w : World) :
  length roster < 100 → (rename_loop roster name name 1 w).1 ∉ roster.
Proof.
  intros Hshort.
  destruct (first_free_candidate roster name 100) as [Hall|(k & Hk & Hfree & Hmin)].
  { apply candidates_fill_roster in Hall. lia. }
  pose proof (rename_loop_walk roster name w k 0) as Hwalk. simpl in Hwalk.
  rewrite Hwalk; [done|lia|done|].
  intros i Hi. apply Hmin. lia.
Qed.

Lemma call_size (c : Call) (w : World) :
  size (active_rooms w) ≤ MAX_ROOMS → size (active_rooms (call c w).2) ≤ MAX_ROOMS.
Proof.
  intros Hsize. rewrite call_unfold.
  destruct c as [rc name info|rc name|rc st|rc|]; simpl.
  - destruct (create_room_cases rc w) as [Hcap|[[Hlt Hin]|[Hlt Hnew]]].
    + by rewrite create_room_at_capacity.
    + by rewrite create_room_conflict.
    + rewrite create_room_fresh by done. simpl.
      rewrite map_size_insert_None by done. lia.
  - destruct (join_room_cases rc w)
      as [Hnone|(room & Hroom & [Hst|[[Hst Hfull]|[Hst Hspare]]])].
    + by rewrite join_room_not_found.
    + by rewrite (join_room_not_waiting _ _ _ room).
    + by rewrite (join_room_full _ _ _ room).
    + rewrite (join_room_accepted _ _ _ room) by done. simpl.
      by rewrite map_size_insert_Some by (by rewrite Hroom).
  - destruct (active_rooms w !! rc) as [room|] eqn:Hroom.
    + rewrite (update_room_status_found _ _ _ room) by done. simpl.
      by rewrite map_size_insert_Some by (by rewrite Hroom).
    + by rewrite update_room_status_not_found.
  - destruct (active_rooms w !! rc) as [room|] eqn:Hroom.
    + rewrite close_room_found by (by rewrite Hroom). simpl.
      pose proof (size_delete_registered (active_rooms w) rc) as Hdel.
      rewrite Hroom in Hdel. specialize (Hdel (mk_is_Some _ _ eq_refl)). lia.
    + by rewrite close_room_not_found.
  - pose proof (cleanup_old_rooms_sizes w). lia.
Qed.

Lemma call_keeps_rooms_well_formed (c : Call) (w : World) :
  rooms_well_formed w → rooms_well_formed (call c w).2.
Proof.
  intros Hinv code room' Hroom'.
  destruct (call_lookup_any c w code room' Hroom')
    as [Hsame|[(_ & _ & name & info & _ & ->)|
              [(room & name & _ & Hroom & _ & Hspare & ->)|
               (room & st & _ & Hroom & ->)]]].
  - by eapply Hinv.
  - repeat split; simpl; [unfold MAX_PLAYERS_PER_ROOM; lia|].
    apply NoDup_singleton.
  - destruct (Hinv code room Hroom) as (Hmax & Hhead & Hlen & Hnodup).
    assert ((rename_loop (players room) name name 1 w).1 ∉ players room) as Hfree.
    { apply rename_loop_short_roster. unfold MAX_PLAYERS_PER_ROOM in Hmax. lia. }
    unfold joined_room, room_well_formed. simpl.
    split; [done|]. split; [|split].
    + destruct (players room); [done|done].
    + rewrite length_app. simpl. lia.
    + apply NoDup_app. split; [done|]. split; [|apply NoDup_singleton].
      intros x Hx ->%list_elem_of_singleton. done.
  - by apply (Hinv code room).
Qed.

(** ** Invariants of the registry *)

(** X5. "Room is full" is an answer status updates alone make possible:
    in a world reached from the empty registry by create, join, close and
    clean-up calls, no [join_room] ever gets it. A room that is full has
    been started by the join that filled it, and the status test comes
    first. *)
Theorem join_room_never_full_without_updates (cs : list Call) (clock : nat → Z)
    (uuids : nat → string) (room_code name : string) :
  Forall (λ c, is_update c = false) cs →
  (join_room room_code name (run cs (fresh_world clock uuids))).1 ≠ Err.RoomFull.
Proof.
  intros Hcs.
  pose proof (run_keeps_full_rooms_started cs _ Hcs
                (fresh_world_full_rooms_started clock uuids)) as Hinv.
  set (w := run cs (fresh_world clock uuids)) in *.
  destruct (join_room_cases room_code w)
    as [Hnone|(room & Hroom & [Hst|[[Hst Hfull]|[Hst Hspare]]])].
  - by rewrite join_room_not_found.
  - by rewrite (join_room_not_waiting _ _ _ room).
  - specialize (Hinv room_code room Hroom Hfull). by rewrite Hst in Hinv.
  - by rewrite (join_room_accepted _ _ _ room).
Qed.

Lemma join_room_never_full_without_updates_witness :
  Forall (λ c, is_update c = false)
         [CreateRoom "ABCD" "Alice" ∅; JoinRoom "ABCD" "Bob"] ∧
  (join_room "ABCD" "Carol" scenario_A).1 ≠ Err.RoomFull.
Proof.
  assert (Forall (λ c, is_update c = false)
                 [CreateRoom "ABCD" "Alice" ∅; JoinRoom "ABCD" "Bob"]) as Hcs
    by (repeat constructor).
  split; [exact Hcs|].
  exact (join_room_never_full_without_updates _ demo_clock demo_uuids "ABCD" "Carol" Hcs).
Defined.

(** X6. Whatever calls are made, status updates included, every room
    keeps the shape [create_room] gave it: two seats, the host's name in
    the first, at most [max_players] players, and no name twice. *)
Theorem rooms_stay_well_formed (cs : list Call) (w : World) :
  rooms_well_formed w → rooms_well_formed (run cs w).
Proof.
  revert w. induction cs as [|c cs IH]; intros w Hinv; [done|].
  simpl. by apply IH, call_keeps_rooms_well_formed.
Qed.

Lemma rooms_stay_well_formed_witness :
  rooms_well_formed demo_world ∧
  room_well_formed scenario_A_room ∧
  rooms_well_formed
    (run [CreateRoom "XYZ" "Alice" ∅; JoinRoom "XYZ" "Alice";
          UpdateRoomStatus "XYZ" "waiting"; JoinRoom "XYZ" "Alice"] demo_world).
Proof.
  assert (rooms_well_formed demo_world) as Hempty.
  { intros code room Hroom. vm_compute in Hroom. discriminate Hroom. }
  split; [exact Hempty|]. split.
  - apply (rooms_stay_well_formed
             [CreateRoom "ABCD" "Alice" ∅; JoinRoom "ABCD" "Bob"] demo_world Hempty "ABCD").
    vm_compute. reflexivity.
  - exact (rooms_stay_well_formed _ demo_world Hempty).
Defined.

(** X7. The registry never outgrows [MAX_ROOMS]: no sequence of calls
    takes it from at most [MAX_ROOMS] rooms to more. *)
Theorem registry_stays_within_max_rooms (cs : list Call) (w : World) :
  size (active_rooms w) ≤ MAX_ROOMS → size (active_rooms (run cs w)) ≤ MAX_ROOMS.
Proof.
  revert w. induction cs as [|c cs IH]; intros w Hsize; [done|].
  simpl. by apply IH, call_size.
Qed.

Lemma registry_stays_within_max_rooms_witness :
  size (active_rooms crowded_world) ≤ MAX_ROOMS ∧
  size (active_rooms (run [CreateRoom "ABCD" "Alice" ∅; CreateRoom "EFGH" "Bob" ∅]
                          crowded_world)) ≤ MAX_ROOMS.
Proof.
  assert (size (active_rooms crowded_world) ≤ MAX_ROOMS) as Hsize
    by (apply Nat.leb_le; vm_compute; reflexivity).
  split; [exact Hsize|].
  exact (registry_stays_within_max_rooms _ crowded_world Hsize).
Defined.

Lemma call_identity (c : Call) (w : World) (code : string) (room room' : Room) :
  active_rooms w !! code = Some room →
  active_rooms (call c w).2 !! code = Some room' →
  host room' = host room ∧ created_at room' = created_at room ∧
  max_players room' = max_players room ∧ players room `prefix_of` players room'.
Proof.
  intros Hroom Hroom'.
  destruct (call_lookup_any c w code room' Hroom')
    as [Hsame|[(Hnone & _)|
              [(room0 & name & _ & Hroom0 & _ & _ & ->)|
               (room0 & st & _ & Hroom0 & ->)]]].
  - rewrite Hroom in Hsame. by injection Hsame as ->.
  - by rewrite Hroom in Hnone.
  - rewrite Hroom in Hroom0. injection Hroom0 as <-. simpl.
    repeat (split; [done|]). by apply prefix_app_r.
  - rewrite Hroom in Hroom0. by injection Hroom0 as <-.
Qed.

(** X8. A room is created once and only ever appended to: as long as it
    stays registered, through any calls, its host, its [created_at] and
    its [max_players] are what they were, and its earlier player list is
    a prefix of the later one. *)
Theorem live_room_keeps_identity (cs : list Call) (w : World) (code : string)
    (room room' : Room) :
  live_throughout code cs w →
  active_rooms w !! code = Some room →
  active_rooms (run cs w) !! code = Some room' →
  host room' = host room ∧ created_at room' = created_at room ∧
  max_players room' = max_players room ∧ players room `prefix_of` players room'.
Proof.
  revert w room. induction cs as [|c cs IH]; intros w room Hlive Hroom Hroom'; simpl in *.
  - rewrite Hroom in Hroom'. by injection Hroom' as ->.
  - destruct Hlive as [_ Hlive].
    assert (is_Some (active_rooms (call c w).2 !! code)) as [room1 Hroom1]
      by (by destruct cs; destruct Hlive).
    destruct (call_identity c w code room room1 Hroom Hroom1) as (Hh & Hc & Hm & Hp).
    destruct (IH _ room1 Hlive Hroom1 Hroom') as (Hh' & Hc' & Hm' & Hp').
    split; [congruence|]. split; [congruence|]. split; [congruence|].
    by etrans.
Qed.

Lemma live_room_keeps_identity_witness :
  live_throughout "ABCD" [JoinRoom "ABCD" "Bob"; UpdateRoomStatus "ABCD" "completed"]
                  scenario_A_created ∧
  active_rooms scenario_A_created !! "ABCD" = Some waiting_room ∧
  ∃ room',
    active_rooms (run [JoinRoom "ABCD" "Bob"; UpdateRoomStatus "ABCD" "completed"]
                      scenario_A_created) !! "ABCD" = Some room' ∧
    host room' = host waiting_room ∧
    created_at room' = created_at waiting_room ∧
    ["Alice"] `prefix_of` players room'.
Proof.
  set (cs := [JoinRoom "ABCD" "Bob"; UpdateRoomStatus "ABCD" "completed"]).
  set (room' := set_last_activity (demo_clock 3) (set_status "completed" scenario_A_room)).
  assert (live_throughout "ABCD" cs scenario_A_created) as Hlive.
  { split; [exists waiting_room; vm_compute; reflexivity|].
    split; [exists scenario_A_room; vm_compute; reflexivity|].
    split; [exists room'; vm_compute; reflexivity|exact I]. }
  assert (active_rooms scenario_A_created !! "ABCD" = Some waiting_room) as Hroom
    by (vm_compute; reflexivity).
  assert (active_rooms (run cs scenario_A_created) !! "ABCD" = Some room') as Hroom'
    by (vm_compute; reflexivity).
  split; [exact Hlive|]. split; [exact Hroom|]. exists room'. split; [exact Hroom'|].
  destruct (live_room_keeps_identity cs scenario_A_created "ABCD" waiting_room room'
              Hlive Hroom Hroom') as (Hhost & Hcreated & _ & Hprefix).
  split; [exact Hhost|]. split; [exact Hcreated|exact Hprefix].
Defined.

(** ** Activity and the clean-up *)

(** X9. A successful create, join or status update stamps the room with
    the last clock reading the call made. A clean-up run next, whose own
    reading of the clock is at most [ROOM_TIMEOUT] seconds later, keeps
    the room as it is. *)
Theorem touched_room_survives_sweep (c : Call) (w : World) (code : string)
    (room' : Room) :
  target c = Some code →
  (call c w).1 = true →
  active_rooms (call c w).2 !! code = Some room' →
  let w' := (call c w).2 in
  clock_reads w < clock_reads w' ∧
  last_activity room' = wall_clock w (pred (clock_reads w')) ∧
  ((wall_clock w (clock_reads w') - wall_clock w (pred (clock_reads w'))
    ≤ ROOM_TIMEOUT * 1000000)%Z →
   active_rooms (cleanup_old_rooms w').2 !! code = Some room').
Proof.
  intros Htarget Hok Hroom'. cbv zeta.
  assert (wall_clock (call c w).2 = wall_clock w ∧
          clock_reads w < clock_reads (call c w).2 ∧
          last_activity room' = wall_clock w (pred (clock_reads (call c w).2)))
    as (Hclock & Hreads & Hstamp).
  { revert Hok Hroom'. rewrite call_unfold.
    destruct c as [rc name info|rc name|rc st|rc|]; simpl in *;
      [| | | |done]; injection Htarget as ->.
    - destruct (create_room_cases code w) as [Hcap|[[Hlt Hin]|[Hlt Hnew]]].
      + by rewrite create_room_at_capacity.
      + by rewrite create_room_conflict.
      + rewrite create_room_fresh by done. simpl. rewrite lookup_insert_eq.
        intros _ [= <-]. simpl. split; [done|]. split; [lia|done].
    - destruct (join_room_cases code w)
        as [Hnone|(room & Hroom & [Hst|[[Hst Hfull]|[Hst Hspare]]])].
      + by rewrite join_room_not_found.
      + by rewrite (join_room_not_waiting _ _ _ room).
      + by rewrite (join_room_full _ _ _ room).
      + rewrite (join_room_accepted _ _ _ room) by done. simpl.
        rewrite lookup_insert_eq. intros _ [= <-]. simpl. split; [done|]. split; [lia|done].
    - destruct (active_rooms w !! code) as [room|] eqn:Hroom.
      + rewrite (update_room_status_found _ _ _ room) by done. simpl.
        rewrite lookup_insert_eq. intros _ [= <-]. simpl. split; [done|]. split; [lia|done].
      + by rewrite update_room_status_not_found.
    - destruct (active_rooms w !! code) as [room|] eqn:Hroom.
      + rewrite close_room_found by (by rewrite Hroom). simpl.
        by rewrite lookup_delete_eq.
      + by rewrite close_room_not_found. }
  split; [done|]. split; [done|]. intros Hsoon.
  rewrite cleanup_old_rooms_lookup, Hroom'. unfold timed_out.
  rewrite Hclock, Hstamp. by rewrite bool_decide_eq_false_2 by lia.
Qed.

Lemma touched_room_survives_sweep_witness :
  target (JoinRoom "ABCD" "Bob") = Some "ABCD" ∧
  (call (JoinRoom "ABCD" "Bob") scenario_A_created).1 = true ∧
  active_rooms (call (JoinRoom "ABCD" "Bob") scenario_A_created).2 !! "ABCD"
    = Some scenario_A_room ∧
  last_activity scenario_A_room = demo_clock 2 ∧
  active_rooms
    (cleanup_old_rooms (call (JoinRoom "ABCD" "Bob") scenario_A_created).2).2 !! "ABCD"
    = Some scenario_A_room.
Proof.
  assert ((call (JoinRoom "ABCD" "Bob") scenario_A_created).1 = true) as Hok
    by (vm_compute; reflexivity).
  assert (active_rooms (call (JoinRoom "ABCD" "Bob") scenario_A_created).2 !! "ABCD"
          = Some scenario_A_room) as Hroom
    by (vm_compute; reflexivity).
  destruct (touched_room_survives_sweep (JoinRoom "ABCD" "Bob") scenario_A_created
              "ABCD" scenario_A_room eq_refl Hok Hroom) as (_ & Hstamp & Hkept).
  split; [reflexivity|]. split; [exact Hok|]. split; [exact Hroom|].
  split; [reflexivity|].
  apply Hkept. vm_compute. discriminate.
Defined.

(** ** The renaming loop at its bound *)

Lemma rename_loop_walk_taken (roster : list string) (name : string) (w : World)
    (d j : nat) :
  j + d = 99 →
  (∀ i, j ≤ i < 100 → candidate name i ∈ roster) →
  rename_loop roster name (candidate name j) (S j) w =
    (name +:+ "_" +:+ uuid_source w (uuid_reads w),
     mkWorld (active_rooms w) (rooms_file w) (wall_clock w) (clock_reads w)
             (uuid_source w) (S (uuid_reads w))).
Proof.
  revert j. induction d as [|d IH]; intros j Hj Htaken.
  - apply rename_loop_exhausted; [apply Htaken; lia|lia].
  - rewrite rename_loop_taken; [|apply Htaken; lia|lia].
    replace (S j + 1) with (S (S j)) by lia.
    apply (IH (S j)); [lia|]. intros i Hi. apply Htaken. lia.
Qed.

(** X10. When the requested name and all of [name_1] to [name_99] are in
    the roster, the loop gives up: it draws one random token and returns
    [name_token]. That name is returned without being looked up in the
    roster, and [name_100] is not tried. *)
Theorem rename_loop_falls_back (roster : list string) (name : string) (w : World) :
  (∀ i, i < 100 → candidate name i ∈ roster) →
  (rename_loop roster name name 1 w).1 = name +:+ "_" +:+ uuid_source w (uuid_reads w) ∧
  uuid_reads (rename_loop roster name name 1 w).2 = S (uuid_reads w) ∧
  100 ≤ length roster.
Proof.
  intros Htaken.
  pose proof (rename_loop_walk_taken roster name w 99 0) as Hwalk. simpl in Hwalk.
  rewrite Hwalk; [|done|intros i Hi; apply Htaken; lia]. simpl.
  split; [done|]. split; [done|]. by apply (candidates_fill_roster roster name).
Qed.

Lemma rename_loop_falls_back_witness :
  (∀ i, i < 100 → candidate "Alice" i ∈ "Alice_c0de" :: (candidate "Alice" <$> seq 0 100)) ∧
  (rename_loop ("Alice_c0de" :: (candidate "Alice" <$> seq 0 100)) "Alice" "Alice" 1
               demo_world).1 = "Alice_c0de" ∧
  "Alice_c0de" ∈ "Alice_c0de" :: (candidate "Alice" <$> seq 0 100) ∧
  candidate "Alice" 100 ∉ "Alice_c0de" :: (candidate "Alice" <$> seq 0 100).
Proof.
  assert (∀ i, i < 100 →
            candidate "Alice" i ∈ "Alice_c0de" :: (candidate "Alice" <$> seq 0 100))
    as Htaken.
  { intros i Hi. right. apply list_elem_of_fmap. exists i. split; [reflexivity|].
    apply elem_of_seq. lia. }
  destruct (rename_loop_falls_back _ "Alice" demo_world Htaken) as (Hname & _ & _).
  split; [exact Htaken|]. split; [exact Hname|]. split; [left|].
  intros Hin. apply elem_of_cons in Hin as [Heq|Hin]; [discriminate Heq|].
  apply list_elem_of_fmap in Hin as (i & Heq & Hi).
  apply (inj (candidate "Alice")) in Heq. subst i.
  apply elem_of_seq in Hi. lia.
Defined.

(** ** A match, from creation to start *)

(** X11. A room that has just been created is started by the first
    [join_room] on it: the join succeeds, the players are the host and
    the joiner, in that order, the status is ["in_progress"], and the
    reply carries the port stored at creation. A joiner with the host's
    name plays as [name_1] and is told so. From then on every join on
    the room is refused with "Room is not accepting players". *)
Theorem first_join_starts_created_room (w : World) (room_code host_player joiner : string)
    (host_info : gmap string json) :
  size (active_rooms w) < MAX_ROOMS →
  active_rooms w !! room_code = None →
  let created := (create_room room_code host_player host_info w).2 in
  let final := if bool_decide (joiner = host_player) then host_player +:+ "_1"
               else joiner in
  ∃ reply,
    (join_room room_code joiner created).1 = Success reply ∧
    joined_players reply = [host_player; final] ∧
    joined_status reply = "in_progress" ∧
    joined_player_name reply = final ∧
    joined_name_changed reply = bool_decide (joiner = host_player) ∧
    joined_host_port reply = dict_get host_info "port" (JInt 5555) ∧
    ∀ third,
      (join_room room_code third (join_room room_code joiner created).2).1
        = Err.RoomNotAcceptingPlayers.
Proof.
  intros Hlt Hnew. cbv zeta. rewrite create_room_fresh by done. simpl.
  set (room := created_room host_player host_info w).
  set (created := mkWorld _ _ _ _ _ _).
  assert (active_rooms created !! room_code = Some room) as Hroom
    by apply lookup_insert_eq.
  assert ((rename_loop [host_player] joiner joiner 1 created).1
          = if bool_decide (joiner = host_player) then host_player +:+ "_1" else joiner)
    as Hname.
  { case_bool_decide as Heq.
    - subst joiner. rewrite rename_loop_taken; [|by left|lia].
      rewrite rename_loop_free; [done|].
      intros Hin%list_elem_of_singleton. by apply append_nonempty_ne in Hin.
    - rewrite rename_loop_free; [done|]. by intros Hin%list_elem_of_singleton. }
  rewrite (join_room_accepted _ _ _ room) by (done || (simpl; unfold MAX_PLAYERS_PER_ROOM; lia)).
  simpl. rewrite Hname. clear Hname.
  assert (∀ final third,
            (join_room room_code third
               (mkWorld (<[room_code := joined_room final (wall_clock w (S (S (clock_reads w))))
                                                     room]> (active_rooms created))
                        (rooms_file created
                           ++ [<[room_code := joined_room final
                                                (wall_clock w (S (S (clock_reads w)))) room]>
                                 (active_rooms created)])
                        (wall_clock w) (S (S (S (clock_reads w)))) (uuid_source w)
                        (uuid_reads w))).1
            = Err.RoomNotAcceptingPlayers) as Hshut.
  { intros final third.
    erewrite join_room_not_waiting; [done|apply lookup_insert_eq|done]. }
  destruct (decide (joiner = host_player)) as [->|Hne].
  - rewrite !(bool_decide_eq_true_2 (host_player = host_player)) by done.
    eexists. split; [reflexivity|]. simpl. repeat (split; [done|]).
    split; [|split; [done|]].
    + apply bool_decide_eq_true_2. by apply append_nonempty_ne.
    + intros third. rewrite rename_loop_taken by (by left || lia).
      rewrite rename_loop_free; [apply Hshut|].
      intros Hin%list_elem_of_singleton. by apply append_nonempty_ne in Hin.
  - rewrite !(bool_decide_eq_false_2 (joiner = host_player)) by done.
    eexists. split; [reflexivity|]. simpl. repeat (split; [done|]).
    split; [|split; [done|]].
    + apply bool_decide_eq_false_2. by intros [].
    + intros third. rewrite rename_loop_free; [apply Hshut|].
      by intros Hin%list_elem_of_singleton.
Qed.

Lemma first_join_starts_created_room_witness :
  size (active_rooms demo_world) < MAX_ROOMS ∧
  active_rooms demo_world !! "XYZ" = None ∧
  ∃ reply,
    (join_room "XYZ" "Alice" (create_room "XYZ" "Alice" ∅ demo_world).2).1
      = Success reply ∧
    joined_players reply = ["Alice"; "Alice_1"] ∧
    joined_name_changed reply = true.
Proof.
  assert (size (active_rooms demo_world) < MAX_ROOMS) as Hlt
    by (apply Nat.ltb_lt; vm_compute; reflexivity).
  assert (active_rooms demo_world !! "XYZ" = None) as Hnew by (vm_compute; reflexivity).
  destruct (first_join_starts_created_room demo_world "XYZ" "Alice" "Alice" ∅ Hlt Hnew)
    as (reply & Hreply & Hplayers & _ & _ & Hflag & _).
  split; [exact Hlt|]. split; [exact Hnew|]. exists reply.
  split; [exact Hreply|]. split; [exact Hplayers|exact Hflag].
Defined.

(** ** The rooms file *)

Lemma call_keeps_file_in_sync (c : Call) (w : World) :
  file_in_sync w → file_in_sync (call c w).2.
Proof.
  unfold file_in_sync. intros Hsync. rewrite call_unfold.
  destruct c as [rc name info|rc name|rc st|rc|]; simpl.
  - destruct (create_room_cases rc w) as [Hcap|[[Hlt Hin]|[Hlt Hnew]]].
    + by rewrite create_room_at_capacity.
    + by rewrite create_room_conflict.
    + rewrite create_room_fresh by done. simpl. by rewrite last_snoc.
  - destruct (join_room_cases rc w)
      as [Hnone|(room & Hroom & [Hst|[[Hst Hfull]|[Hst Hspare]]])].
    + by rewrite join_room_not_found.
    + by rewrite (join_room_not_waiting _ _ _ room).
    + by rewrite (join_room_full _ _ _ room).
    + rewrite (join_room_accepted _ _ _ room) by done. simpl. by rewrite last_snoc.
  - destruct (active_rooms w !! rc) as [room|] eqn:Hroom.
    + rewrite (update_room_status_found _ _ _ room) by done. simpl. by rewrite last_snoc.
    + by rewrite update_room_status_not_found.
  - destruct (active_rooms w !! rc) as [room|] eqn:Hroom.
    + rewrite close_room_found by (by rewrite Hroom). simpl. by rewrite last_snoc.
    + by rewrite close_room_not_found.
  - rewrite cleanup_old_rooms_unfold. simpl.
    destruct (filter _ (map_to_list (active_rooms w))) as [|item items]; simpl; [done|].
    by rewrite last_snoc.
Qed.

(** X12. The rooms file follows the registry: if the file held the
    registry before a sequence of calls, it holds the registry after it,
    so that [load_rooms], as run when the server starts again, restores
    exactly the rooms that were registered. *)
Theorem load_rooms_restores_registry (cs : list Call) (w : World) :
  file_in_sync w →
  file_in_sync (run cs w) ∧
  active_rooms (load_rooms (run cs w)).2 = active_rooms (run cs w).
Proof.
  intros Hsync.
  assert (file_in_sync (run cs w)) as Hsync'.
  { revert w Hsync. induction cs as [|c cs IH]; intros w Hsync; [done|].
    simpl. by apply IH, call_keeps_file_in_sync. }
  split; [done|]. unfold file_in_sync in Hsync'. unfold load_rooms. simpl.
  by destruct (last (rooms_file (run cs w))).
Qed.

Lemma load_rooms_restores_registry_witness :
  file_in_sync demo_world ∧
  active_rooms (load_rooms scenario_A).2 !! "ABCD" = Some scenario_A_room ∧
  active_rooms (load_rooms (run [CloseRoom "ABCD"] scenario_A)).2 = ∅.
Proof.
  assert (file_in_sync demo_world) as Hsync by reflexivity.
  split; [exact Hsync|]. split.
  - destruct (load_rooms_restores_registry
                [CreateRoom "ABCD" "Alice" ∅; JoinRoom "ABCD" "Bob"] demo_world Hsync)
      as [_ Hload].
    change (run _ demo_world) with scenario_A in Hload.
    rewrite Hload. vm_compute. reflexivity.
  - destruct (load_rooms_restores_registry
                [CreateRoom "ABCD" "Alice" ∅; JoinRoom "ABCD" "Bob"; CloseRoom "ABCD"]
                demo_world Hsync) as [_ Hload].
    change (run [CreateRoom "ABCD" "Alice" ∅; JoinRoom "ABCD" "Bob"; CloseRoom "ABCD"]
                demo_world)
      with (run [CloseRoom "ABCD"] scenario_A) in Hload.
    rewrite Hload. vm_compute. reflexivity.
Defined.


(** * Properties of the server around the manager *)

(** ** Text *)

Lemma chars_cons (a : Ascii.ascii) (s : string) : chars (String a s) = a :: chars s.
Proof. done. Qed.

Lemma before_comma_no_comma (s : string) : comma ∉ chars (before_comma s).
Proof.
  induction s as [|a s IH]; cbn [before_comma]; [apply not_elem_of_nil|].
  case_bool_decide as Ha; [apply not_elem_of_nil|].
  rewrite chars_cons. intros [Heq|Hin]%elem_of_cons; [by subst|done].
Qed.

Lemma before_comma_first (first rest : string) :
  comma ∉ chars first → before_comma (first +:+ "," +:+ rest) = first.
Proof.
  induction first as [|a first IH]; intros Hfirst.
  - reflexivity.
  - change (String a first +:+ "," +:+ rest) with (String a (first +:+ "," +:+ rest)).
    rewrite chars_cons in Hfirst. apply not_elem_of_cons in Hfirst as [Hne Hfirst].
    cbn [before_comma]. rewrite bool_decide_eq_false_2 by done. by rewrite IH.
Qed.

Lemma before_comma_whole (s : string) : comma ∉ chars s → before_comma s = s.
Proof.
  induction s as [|a s IH]; intros Hs; [done|].
  rewrite chars_cons in Hs. apply not_elem_of_cons in Hs as [Hne Hs].
  cbn [before_comma]. rewrite bool_decide_eq_false_2 by done. by rewrite IH.
Qed.

Lemma lstrip_suffix (s : string) : chars (lstrip s) `suffix_of` chars s.
Proof.
  induction s as [|a s IH]; cbn [lstrip]; [done|].
  destruct (is_space a); [|done]. rewrite chars_cons. by apply suffix_cons_r.
Qed.

Lemma lstrip_head (s : string) (a : Ascii.ascii) :
  head (chars (lstrip s)) = Some a → is_space a = false.
Proof.
  induction s as [|b s IH]; cbn [lstrip]; [done|].
  destruct (is_space b) eqn:Hb; [done|]. rewrite chars_cons. simpl. by intros [= <-].
Qed.

Lemma rstrip_prefix (s : string) : chars (rstrip s) `prefix_of` chars s.
Proof.
  induction s as [|a s IH]; cbn [rstrip]; [done|].
  destruct (rstrip s) as [|b kept] eqn:Hkept.
  - destruct (is_space a); [apply prefix_nil|].
    rewrite !chars_cons. apply prefix_cons, prefix_nil.
  - rewrite (chars_cons a (String b kept)), (chars_cons a s). by apply prefix_cons.
Qed.

Lemma rstrip_last (s : string) (a : Ascii.ascii) :
  last (chars (rstrip s)) = Some a → is_space a = false.
Proof.
  induction s as [|b s IH]; cbn [rstrip]; [done|].
  destruct (rstrip s) as [|c kept] eqn:Hkept.
  - destruct (is_space b) eqn:Hb; [done|]. rewrite chars_cons. simpl. by intros [= <-].
  - rewrite (chars_cons b (String c kept)). rewrite (chars_cons c kept) in *.
    done.
Qed.

Lemma strip_ends (s : string) (a : Ascii.ascii) :
  head (chars (strip s)) = Some a ∨ last (chars (strip s)) = Some a →
  is_space a = false.
Proof.
  unfold strip. intros [Hhead|Hlast]; [|by eapply rstrip_last].
  apply (lstrip_head s).
  destruct (rstrip_prefix (lstrip s)) as [tail Htail]. rewrite Htail.
  destruct (chars (rstrip (lstrip s))); [done|done].
Qed.

Lemma strip_chars (s : string) (a : Ascii.ascii) : a ∈ chars (strip s) → a ∈ chars s.
Proof.
  unfold strip. intros Hin.
  destruct (rstrip_prefix (lstrip s)) as [tail Htail].
  destruct (lstrip_suffix s) as [front Hfront].
  rewrite Hfront, Htail. apply elem_of_app. right. apply elem_of_app. by left.
Qed.

(** ** The address of the client *)

(** X13. When the request carries a non-empty X-Forwarded-For header,
    [get_public_ip] answers with its first entry, stripped of surrounding
    whitespace, whatever X-Real-IP and the peer address are: a text
    without a comma and without whitespace at either end. The entries
    after the first comma play no part. *)
Theorem get_public_ip_forwarded (request : Request) (forwarded : string) :
  x_forwarded_for request = Some forwarded →
  forwarded ≠ "" →
  ∃ ip,
    UserTracker.get_public_ip request = Some ip ∧
    (comma ∉ chars ip) ∧
    (∀ a, head (chars ip) = Some a ∨ last (chars ip) = Some a → is_space a = false) ∧
    (∀ a, a ∈ chars ip → a ∈ chars forwarded) ∧
    (comma ∉ chars forwarded → ip = strip forwarded) ∧
    (∀ first rest,
       forwarded = first +:+ "," +:+ rest → comma ∉ chars first → ip = strip first).
Proof.
  intros Hheader Hne. exists (strip (before_comma forwarded)).
  unfold UserTracker.get_public_ip. rewrite Hheader. simpl.
  rewrite bool_decide_eq_true_2 by done.
  split; [done|]. split; [|split; [|split; [|split]]].
  - intros Hin%strip_chars. by apply before_comma_no_comma in Hin.
  - apply strip_ends.
  - intros a Hin%strip_chars. revert Hin. clear.
    induction forwarded as [|b s IH]; cbn [before_comma]; [done|].
    case_bool_decide; [by intros ?%not_elem_of_nil|].
    rewrite !chars_cons. intros [->|Hin]%elem_of_cons; [by left|right; auto].
  - intros Hnone. by rewrite before_comma_whole.
  - intros first rest -> Hfirst. by rewrite before_comma_first.
Qed.

Lemma get_public_ip_forwarded_witness :
  x_forwarded_for demo_request = Some " 203.0.113.7 , 10.0.0.1" ∧
  UserTracker.get_public_ip demo_request = Some "203.0.113.7".
Proof.
  assert (x_forwarded_for demo_request = Some " 203.0.113.7 , 10.0.0.1") as Hheader
    by reflexivity.
  assert (" 203.0.113.7 , 10.0.0.1" ≠ "") as Hne by discriminate.
  destruct (get_public_ip_forwarded demo_request _ Hheader Hne)
    as (ip & Hip & _ & _ & _ & _ & Hfirst).
  split; [exact Hheader|]. rewrite Hip. f_equal.
  rewrite (Hfirst " 203.0.113.7 " " 10.0.0.1"); [reflexivity|reflexivity|].
  vm_compute. intros Hin. repeat (apply elem_of_cons in Hin as [Heq|Hin];
                                   [discriminate Heq|]).
  by apply not_elem_of_nil in Hin.
Defined.

(** ** Unfolding the handlers *)

Ltac unfold_srv :=
  unfold mbind, Srv_bind, mret, Srv_ret, room_manager, UserTracker.new_session_id,
         UserTracker.append_user, UserTracker.save_data; simpl.

Lemma server_eta (sv : Server) :
  mkServer (world sv) (user_database sv) (user_tracking_file sv)
           (session_source sv) (session_reads sv) = sv.
Proof. by destruct sv. Qed.

Lemma blank_not_truthy (data : gmap string json) (key : string) :
  blank data key ↔ truthy (dict_get data key JNull) = false.
Proof.
  unfold blank, dict_get. destruct (data !! key) as [[|n|s]|]; simpl.
  - naive_solver.
  - rewrite bool_decide_eq_false. split.
    + intros [?|[?|[?|[= ->]]]]; try done. by intros [].
    + intros Hn. right. right. right. f_equal. f_equal.
      destruct (decide (n = 0%Z)); [done|by destruct Hn].
  - rewrite bool_decide_eq_false. split.
    + intros [?|[?|[[= ->]|?]]]; try done. by intros [].
    + intros Hs. right. right. left. f_equal. f_equal.
      destruct (decide (s = "")); [done|by destruct Hs].
  - naive_solver.
Qed.

Lemma text_is_truthy (data : gmap string json) (key text : string) :
  data !! key = Some (JStr text) → text ≠ "" →
  dict_get data key JNull = JStr text ∧ truthy (dict_get data key JNull) = true.
Proof.
  intros Hkey Htext. unfold dict_get. rewrite Hkey. simpl.
  by rewrite bool_decide_eq_true_2.
Qed.

Lemma track_user_unfold (player_name : string) (request : Request) (mac_address : json)
    (sv : Server) :
  UserTracker.track_user player_name request mac_address sv =
    (tracked_entry player_name request mac_address sv,
     after_tracking (tracked_entry player_name request mac_address sv) sv).
Proof. done. Qed.

Section handlers.
Context (request : Request) (data : gmap string json) (sv : Server).
Context (room_code : string) (Hcode : data !! "room_code" = Some (JStr room_code))
        (Hcode_ne : room_code ≠ "").

Let mac_address : json := dict_get data "mac_address" JNull.

Lemma route_create_room_unfold (player_name : string) :
  data !! "player_name" = Some (JStr player_name) → player_name ≠ "" →
  let sv1 := after_tracking (tracked_entry player_name request mac_address sv) sv in
  let made := create_room room_code player_name (route_host_info request data)
                          (world sv1) in
  Route.create_room request data sv =
    (Some (made.1, if succeeded made.1 then 201 else 400),
     mkServer made.2 (user_database sv1) (user_tracking_file sv1)
              (session_source sv1) (session_reads sv1)).
Proof using Hcode Hcode_ne.
  intros Hname Hname_ne. cbv zeta. unfold Route.create_room.
  destruct (text_is_truthy data "room_code" room_code Hcode Hcode_ne) as [-> ->].
  destruct (text_is_truthy data "player_name" player_name Hname Hname_ne) as [-> ->].
  cbn [negb orb]. unfold mbind at 1, Srv_bind at 1. rewrite track_user_unfold.
  unfold_srv. fold mac_address. unfold route_host_info.
  by destruct (create_room _ _ _ _) as [[?|?] ?].
Qed.

Lemma route_join_room_unfold (player_name : string) :
  data !! "player_name" = Some (JStr player_name) → player_name ≠ "" →
  let sv1 := after_tracking (tracked_entry player_name request mac_address sv) sv in
  let joined := join_room room_code player_name (world sv1) in
  Route.join_room request data sv =
    (Some (joined.1, if succeeded joined.1 then 200 else 400),
     mkServer joined.2 (user_database sv1) (user_tracking_file sv1)
              (session_source sv1) (session_reads sv1)).
Proof using Hcode Hcode_ne.
  intros Hname Hname_ne. cbv zeta. unfold Route.join_room.
  destruct (text_is_truthy data "room_code" room_code Hcode Hcode_ne) as [-> ->].
  destruct (text_is_truthy data "player_name" player_name Hname Hname_ne) as [-> ->].
  cbn [negb orb]. unfold mbind at 1, Srv_bind at 1. rewrite track_user_unfold.
  unfold_srv. fold mac_address.
  by destruct (join_room _ _ _) as [[?|?] ?].
Qed.

Lemma route_update_room_unfold (new_status : string) :
  data !! "status" = Some (JStr new_status) → new_status ≠ "" →
  let updated := update_room_status room_code new_status (world sv) in
  Route.update_room data sv =
    (Some (updated.1, 200),
     mkServer updated.2 (user_database sv) (user_tracking_file sv)
              (session_source sv) (session_reads sv)).
Proof using Hcode Hcode_ne.
  intros Hstatus Hstatus_ne. cbv zeta. unfold Route.update_room.
  destruct (text_is_truthy data "room_code" room_code Hcode Hcode_ne) as [-> ->].
  destruct (text_is_truthy data "status" new_status Hstatus Hstatus_ne) as [-> ->].
  cbn [negb orb]. unfold_srv.
  by destruct (update_room_status _ _ _).
Qed.

Lemma route_close_room_unfold :
  let closed := close_room room_code (world sv) in
  Route.close_room data sv =
    (Some (closed.1, 200),
     mkServer closed.2 (user_database sv) (user_tracking_file sv)
              (session_source sv) (session_reads sv)).
Proof using Hcode Hcode_ne.
  cbv zeta. unfold Route.close_room.
  destruct (text_is_truthy data "room_code" room_code Hcode Hcode_ne) as [-> ->].
  cbn [negb]. unfold_srv.
  by destruct (close_room _ _).
Qed.
End handlers.

(** ** Requests that are refused before anything happens *)


(** X14. A POST whose room code is missing, null, empty or zero is
    answered 400 by the create, join, update and close handlers, and so
    is a create or join without a usable player name and an update
    without a usable status. Nothing else happens: no user is recorded,
    no room is touched, no clock is read, no file is written. *)
Theorem blank_fields_are_refused (request : Request) (data : gmap string json)
    (sv : Server) :
  (blank data "room_code" ∨ blank data "player_name" →
     Route.create_room request data sv
       = (Some (Failure "Missing room_code or player_name", 400), sv) ∧
     Route.join_room request data sv
       = (Some (Failure "Missing room_code or player_name", 400), sv)) ∧
  (blank data "room_code" ∨ blank data "status" →
     Route.update_room data sv
       = (Some (Failure "Missing room_code or status", 400), sv)) ∧
  (blank data "room_code" →
     Route.close_room data sv = (Some (Failure "Missing room_code", 400), sv)).
Proof.
  split; [|split].
  - intros Hblank.
    assert (negb (truthy (dict_get data "room_code" JNull))
            || negb (truthy (dict_get data "player_name" JNull)) = true) as Hrefuse.
    { destruct Hblank as [H%blank_not_truthy|H%blank_not_truthy]; rewrite H; simpl;
        [done|apply orb_true_r]. }
    unfold Route.create_room, Route.join_room. by rewrite Hrefuse.
  - intros Hblank.
    assert (negb (truthy (dict_get data "room_code" JNull))
            || negb (truthy (dict_get data "status" JNull)) = true) as Hrefuse.
    { destruct Hblank as [H%blank_not_truthy|H%blank_not_truthy]; rewrite H; simpl;
        [done|apply orb_true_r]. }
    unfold Route.update_room. by rewrite Hrefuse.
  - intros H%blank_not_truthy. unfold Route.close_room. by rewrite H.
Qed.

Lemma blank_fields_are_refused_witness :
  blank (delete "player_name" demo_create_body) "player_name" ∧
  Route.create_room demo_request (delete "player_name" demo_create_body) demo_server
    = (Some (Failure "Missing room_code or player_name", 400), demo_server) ∧
  blank (<["room_code" := JStr ""]> demo_join_body) "room_code" ∧
  Route.close_room (<["room_code" := JStr ""]> demo_join_body) demo_server
    = (Some (Failure "Missing room_code", 400), demo_server).
Proof.
  assert (blank (delete "player_name" demo_create_body) "player_name") as Hname
    by (left; vm_compute; reflexivity).
  assert (blank (<["room_code" := JStr ""]> demo_join_body) "room_code") as Hcode
    by (right; right; left; vm_compute; reflexivity).
  destruct (blank_fields_are_refused demo_request (delete "player_name" demo_create_body)
              demo_server) as (Hcreate & _ & _).
  destruct (blank_fields_are_refused demo_request (<["room_code" := JStr ""]> demo_join_body)
              demo_server) as (_ & _ & Hclose).
  split; [exact Hname|]. split; [exact (proj1 (Hcreate (or_intror Hname)))|].
  split; [exact Hcode|exact (Hclose Hcode)].
Defined.

(** ** Creating and joining over HTTP *)

(** X15. The create handler, given a room code and a player name, first
    records the player and then asks the manager. The player is recorded
    whether or not the room is created. The answer is 201 with a room
    registered under the code, or 400 with the registry as it was and the
    manager's refusal. The host of the new room has the address and port
    of the body (port 5555 if the body has none) and the public address
    [get_public_ip] reads off the request: a ["public_ip"] in the body is
    not looked at. *)
Theorem create_handler_tracks_then_creates (request : Request) (data : gmap string json)
    (sv : Server) (room_code player_name : string) :
  data !! "room_code" = Some (JStr room_code) → room_code ≠ "" →
  data !! "player_name" = Some (JStr player_name) → player_name ≠ "" →
  let out := Route.create_room request data sv in
  ∃ reply code,
    out.1 = Some (reply, code) ∧
    (∃ entry,
       user_database out.2 = user_database sv ++ [entry] ∧
       entry_player_name entry = player_name ∧
       entry_public_ip entry = json_of_text (UserTracker.get_public_ip request)) ∧
    ((code = 201 ∧ succeeded reply = true ∧
      active_rooms (world sv) !! room_code = None ∧
      ∃ room,
        active_rooms (world out.2) !! room_code = Some room ∧
        host room = mkHost player_name
                           (dict_get data "host_ip" JNull)
                           (dict_get data "host_port" (JInt 5555))
                           (json_of_text (UserTracker.get_public_ip request))) ∨
     (code = 400 ∧ (reply = Err.CapacityExceeded ∨ reply = Err.CodeConflict) ∧
      active_rooms (world out.2) = active_rooms (world sv))).
Proof.
  intros Hcode Hcode_ne Hname Hname_ne. cbv zeta.
  rewrite (route_create_room_unfold request data sv room_code Hcode Hcode_ne player_name)
    by done.
  set (entry := tracked_entry _ _ _ _). set (sv1 := after_tracking entry sv).
  assert (active_rooms (world sv1) = active_rooms (world sv)) as Hrooms by done.
  eexists _, _. split; [reflexivity|]. split; [by exists entry|]. simpl.
  destruct (create_room_cases room_code (world sv1)) as [Hcap|[[Hlt Hin]|[Hlt Hnew]]].
  - rewrite create_room_at_capacity by done. simpl. right. auto.
  - rewrite create_room_conflict by done. simpl. right. auto.
  - rewrite create_room_fresh by done. simpl. left.
    split; [done|]. split; [done|]. split; [by rewrite <- Hrooms|].
    eexists. split; [apply lookup_insert_eq|]. done.
Qed.

Lemma create_handler_tracks_then_creates_witness :
  ∃ reply room,
    (Route.create_room demo_request demo_create_body demo_server).1
      = Some (reply, 201) ∧
    active_rooms (world (Route.create_room demo_request demo_create_body demo_server).2)
      !! "ABCD" = Some room ∧
    host room = mkHost "Alice" (JStr "192.168.1.20") (JInt 5555) (JStr "203.0.113.7") ∧
    length (user_database (Route.create_room demo_request demo_create_body demo_server).2)
      = 1.
Proof.
  destruct (create_handler_tracks_then_creates demo_request demo_create_body demo_server
              "ABCD" "Alice")
    as (reply & code & Hout & (entry & Hdb & _) & [Hmade|Hrefused]);
    try (vm_compute; reflexivity); try discriminate.
  - destruct Hmade as (-> & _ & _ & room & Hroom & Hhost).
    exists reply, room. split; [exact Hout|]. split; [exact Hroom|].
    split; [rewrite Hhost; vm_compute; reflexivity|].
    rewrite Hdb. reflexivity.
  - exfalso. destruct Hrefused as (-> & _ & _). revert Hout. vm_compute. discriminate.
Defined.

(** X16. The join handler records the player, then asks the manager, and
    answers 200 exactly when the room was waiting with a seat free; in
    every other case it answers 400 and the registry is as it was. The
    player is recorded in both cases. *)
Theorem join_handler_tracks_then_joins (request : Request) (data : gmap string json)
    (sv : Server) (room_code player_name : string) :
  data !! "room_code" = Some (JStr room_code) → room_code ≠ "" →
  data !! "player_name" = Some (JStr player_name) → player_name ≠ "" →
  let out := Route.join_room request data sv in
  ∃ reply code,
    out.1 = Some (reply, code) ∧
    (∃ entry,
       user_database out.2 = user_database sv ++ [entry] ∧
       entry_player_name entry = player_name) ∧
    ((code = 200 ∧ succeeded reply = true ∧
      ∃ room room',
        active_rooms (world sv) !! room_code = Some room ∧
        status room = "waiting" ∧ length (players room) < max_players room ∧
        active_rooms (world out.2) !! room_code = Some room' ∧
        length (players room') = S (length (players room))) ∨
     (code = 400 ∧ succeeded reply = false ∧
      active_rooms (world out.2) = active_rooms (world sv) ∧
      ¬ ∃ room,
          active_rooms (world sv) !! room_code = Some room ∧
          status room = "waiting" ∧ length (players room) < max_players room)).
Proof.
  intros Hcode Hcode_ne Hname Hname_ne. cbv zeta.
  rewrite (route_join_room_unfold request data sv room_code Hcode Hcode_ne player_name)
    by done.
  set (entry := tracked_entry _ _ _ _). set (sv1 := after_tracking entry sv).
  assert (active_rooms (world sv1) = active_rooms (world sv)) as Hrooms by done.
  eexists _, _. split; [reflexivity|]. split; [by exists entry|]. simpl.
  destruct (join_room_cases room_code (world sv1))
    as [Hnone|(room & Hroom & [Hst|[[Hst Hfull]|[Hst Hspare]]])].
  - rewrite join_room_not_found by done. simpl. right.
    repeat (split; [done|]). intros (room & Hroom & _). congruence.
  - rewrite (join_room_not_waiting _ _ _ room) by done. simpl. right.
    repeat (split; [done|]). intros (room0 & Hroom0 & Hst0 & _).
    rewrite <- Hrooms, Hroom in Hroom0. by injection Hroom0 as <-.
  - rewrite (join_room_full _ _ _ room) by done. simpl. right.
    repeat (split; [done|]). intros (room0 & Hroom0 & _ & Hspare).
    rewrite <- Hrooms, Hroom in Hroom0. injection Hroom0 as <-. lia.
  - rewrite (join_room_accepted _ _ _ room) by done. simpl. left.
    repeat (split; [done|]). eexists room, _.
    split; [by rewrite <- Hrooms|]. split; [done|]. split; [done|].
    split; [apply lookup_insert_eq|]. simpl. rewrite length_app. simpl. lia.
Qed.

Lemma join_handler_tracks_then_joins_witness :
  ∃ reply,
    (Route.join_room demo_request demo_join_body demo_server).1 = Some (reply, 400) ∧
    length (user_database (Route.join_room demo_request demo_join_body demo_server).2) = 1.
Proof.
  destruct (join_handler_tracks_then_joins demo_request demo_join_body demo_server
              "ABCD" "Bob")
    as (reply & code & Hout & (entry & Hdb & _) & [Hjoined|Hrefused]);
    try (vm_compute; reflexivity); try discriminate.
  - exfalso. destruct Hjoined as (_ & _ & room & _ & Hroom & _).
    vm_compute in Hroom. discriminate Hroom.
  - destruct Hrefused as (-> & _). exists reply. split; [exact Hout|].
    rewrite Hdb. reflexivity.
Defined.

(** ** Unknown rooms over HTTP *)

(** X17. Asked about a room code that is not registered, the three
    handlers disagree on the HTTP status: the update and close handlers
    answer 200 with "Room not found" in the body, the room-info handler
    answers 404. None of them changes the server. *)
Theorem unknown_room_status_codes (data : gmap string json) (sv : Server)
    (room_code : string) :
  data !! "room_code" = Some (JStr room_code) → room_code ≠ "" →
  active_rooms (world sv) !! room_code = None →
  (∀ new_status, data !! "status" = Some (JStr new_status) → new_status ≠ "" →
     Route.update_room data sv = (Some (Err.RoomNotFound, 200), sv)) ∧
  Route.close_room data sv = (Some (Err.RoomNotFound, 200), sv) ∧
  Route.get_room room_code sv = ((Err.RoomNotFound, 404), sv).
Proof.
  intros Hcode Hcode_ne Hnone. split; [|split].
  - intros st Hst Hst_ne.
    rewrite (route_update_room_unfold data sv room_code Hcode Hcode_ne st) by done.
    rewrite update_room_status_not_found by done. simpl. by rewrite server_eta.
  - rewrite (route_close_room_unfold data sv room_code Hcode Hcode_ne).
    rewrite close_room_not_found by done. simpl. by rewrite server_eta.
  - unfold Route.get_room, get_room_info. unfold_srv. unfold_m. rewrite Hnone. simpl.
    by rewrite server_eta.
Qed.

Lemma unknown_room_status_codes_witness :
  demo_join_body !! "room_code" = Some (JStr "ABCD") ∧
  active_rooms (world demo_server) !! "ABCD" = None ∧
  Route.close_room demo_join_body demo_server = (Some (Err.RoomNotFound, 200), demo_server) ∧
  Route.get_room "ABCD" demo_server = ((Err.RoomNotFound, 404), demo_server).
Proof.
  assert (demo_join_body !! "room_code" = Some (JStr "ABCD")) as Hcode
    by (vm_compute; reflexivity).
  assert ("ABCD" ≠ "") as Hne by discriminate.
  assert (active_rooms (world demo_server) !! "ABCD" = None) as Hnone
    by (vm_compute; reflexivity).
  destruct (unknown_room_status_codes demo_join_body demo_server "ABCD" Hcode Hne Hnone)
    as (_ & Hclose & Hget).
  split; [exact Hcode|]. split; [exact Hnone|]. split; [exact Hclose|exact Hget].
Defined.

(** ** Any sequence of hits *)










(** ** One room at a time *)

(** X20. A create, join, status update or close acts on the room it
    names and on no other: whatever it answers, every other code is
    registered after the call exactly as it was before. *)
Theorem call_leaves_other_rooms (c : Call) (w : World) (code other : string) :
  target c = Some code →
  other ≠ code →
  active_rooms (call c w).2 !! other = active_rooms w !! other.
Proof.
  intros Htarget Hother. rewrite call_unfold.
  destruct c as [rc name info|rc name|rc st|rc|]; simpl in *;
    [| | | |done]; injection Htarget as ->.
  - destruct (create_room_cases code w) as [Hcap|[[Hlt Hin]|[Hlt Hnew]]].
    + by rewrite create_room_at_capacity.
    + by rewrite create_room_conflict.
    + rewrite create_room_fresh by done. simpl. by rewrite lookup_insert_ne.
  - destruct (join_room_cases code w)
      as [Hnone|(room & Hroom & [Hst|[[Hst Hfull]|[Hst Hspare]]])].
    + by rewrite join_room_not_found.
    + by rewrite (join_room_not_waiting _ _ _ room).
    + by rewrite (join_room_full _ _ _ room).
    + rewrite (join_room_accepted _ _ _ room) by done. simpl. by rewrite lookup_insert_ne.
  - destruct (active_rooms w !! code) as [room|] eqn:Hroom.
    + rewrite (update_room_status_found _ _ _ room) by done. simpl.
      by rewrite lookup_insert_ne.
    + by rewrite update_room_status_not_found.
  - destruct (active_rooms w !! code) as [room|] eqn:Hroom.
    + rewrite close_room_found by (by rewrite Hroom). simpl. by rewrite lookup_delete_ne.
    + by rewrite close_room_not_found.
Qed.

Lemma call_leaves_other_rooms_witness :
  target (CloseRoom "512") = Some "512" ∧
  "513" ≠ "512" ∧
  active_rooms (call (CloseRoom "512") crowded_world).2 !! "513" = Some waiting_room ∧
  active_rooms (call (CloseRoom "512") crowded_world).2 !! "512" = None.
Proof.
  assert ("513" ≠ "512") as Hne by discriminate.
  split; [reflexivity|]. split; [exact Hne|]. split.
  - rewrite (call_leaves_other_rooms (CloseRoom "512") crowded_world "512" "513" eq_refl Hne).
    vm_compute. reflexivity.
  - vm_compute. reflexivity.
Defined.
